(** * Heuristic anemia screening: the colour pipeline of AnalysisPage.tsx

    A shallow embedding of the image-scoring functions of
    [src/components/pages/AnalysisPage.tsx]:
    [isSkinPixel], [calculatePallorIndex], [estimateHemoglobin],
    [assessAnemiaRisk], [generateGradCAM], [getDefaultResult] and the
    driver [analyzeAnemiaFromImage]; and of what the page does around
    them: [validateImageFile], [handleImageSelection], the checks of
    [validateSkinImage], the state updates of [runAnalysis] and the colour
    classes of the results panel.

    Numbers.  A JavaScript [number] is modelled as an exact rational [Q]:
    every operation of the pipeline is a field operation, a comparison,
    [Math.max]/[Math.min]/[Math.abs]/[Math.round] or [%], all of which are
    written out below on [Q].  Rounding error of IEEE doubles is outside the
    model, and so are [NaN] and the infinities except in [JSNumber], which
    has them for [estimateHemoglobin]; the pipeline divides only by the
    constants 3, 100, 200, 220, 255, by [max] behind a [max === 0] test, by
    [delta] behind a [delta !== 0] test and by a positive pixel count.

    Effects.  The two ambient sources of variation, [Math.random()] and
    [new Date()], and the browser facts the code tests ([getContext('2d')]
    returning [null], [img.onerror] firing) are explicit arguments. *)

From Stdlib Require Import ZArith QArith Qabs Qminmax Qround.
From Stdlib Require Import List String Bool Lia Lqa.
Import ListNotations.
Open Scope Q_scope.

(** ** JavaScript arithmetic on numbers *)

Module JS.

(** [x < y], [x <= y], [x > y], [x >= y], [x === y], [x !== y]. *)
Definition lt (x y : Q) : bool := negb (Qle_bool y x).
Definition le (x y : Q) : bool := Qle_bool x y.
Definition gt (x y : Q) : bool := negb (Qle_bool x y).
Definition ge (x y : Q) : bool := Qle_bool y x.
Definition eq (x y : Q) : bool := Qeq_bool x y.
Definition neq (x y : Q) : bool := negb (Qeq_bool x y).

(** [Math.max(a, b, c)] and [Math.min(a, b, c)]. *)
Definition max3 (a b c : Q) : Q := Qmax (Qmax a b) c.
Definition min3 (a b c : Q) : Q := Qmin (Qmin a b) c.

(** [Math.round] rounds half up: [Math.round(x) = floor(x + 0.5)]. *)
Definition round (x : Q) : Z := Qfloor (x + 0.5).

(** [Math.floor]. *)
Definition floor (x : Q) : Z := Qfloor x.

(** [x % n] is the truncated remainder: it takes the sign of [x]. *)
Definition trunc (x : Q) : Z :=
  if Qle_bool 0 x then Qfloor x else Qceiling x.
Definition rem (x n : Q) : Q := x - n * inject_Z (trunc (x / n)).

End JS.

Declare Scope js_scope.
Delimit Scope js_scope with js.
Notation "x <? y" := (JS.lt x y) : js_scope.
Notation "x <=? y" := (JS.le x y) : js_scope.
Notation "x >? y" := (JS.gt x y) (at level 70, no associativity) : js_scope.
Notation "x >=? y" := (JS.ge x y) (at level 70, no associativity) : js_scope.
Notation "x === y" := (JS.eq x y) (at level 70, no associativity) : js_scope.
Notation "x !== y" := (JS.neq x y) (at level 70, no associativity) : js_scope.
Open Scope js_scope.

(** ** Data model *)

(** [result: 'Normal' | 'Mild Risk' | 'High Risk' | 'Severe Risk'] *)
Inductive RiskTier : Type :=
| Normal
| MildRisk
| HighRisk
| SevereRisk.

(** The severity ordering Normal < Mild Risk < High Risk < Severe Risk. *)
Definition severity (t : RiskTier) : nat :=
  match t with
  | Normal => 0
  | MildRisk => 1
  | HighRisk => 2
  | SevereRisk => 3
  end.

(** A template literal: literal pieces and interpolated numbers, the latter
    kept with the formatter the source applies ([Math.round(x)] or
    [x.toFixed(d)]). *)
Inductive Fragment : Type :=
| Lit (s : string)
| Rounded (x : Q)
| Fixed (digits : nat) (x : Q).

Definition Text : Type := list Fragment.

(** The local variables of [assessAnemiaRisk] as the selected branch leaves
    them, before the [return] statement rounds two of them. *)
Module Locals.
Record t : Type := mk {
  result : RiskTier;
  riskScore : Q;
  confidence : Q;
  explanation : Text;
  recommendations : list string;
  detailedFindings : list Text;
  focusAreas : list Q
}.
End Locals.

(** The object [assessAnemiaRisk] returns. *)
Module Assessment.
Record t : Type := mk {
  result : RiskTier;
  riskScore : Z;
  confidence : Q;
  explanation : Text;
  recommendations : list string;
  detailedFindings : list Text;
  focusAreas : list Q
}.
End Assessment.

(** ** assessAnemiaRisk *)

Definition assessBranch (random : Q)
    (pallorIndex hemoglobinEstimate r g b : Q) : Locals.t :=
  if (pallorIndex <? 0.2) && (hemoglobinEstimate >=? 12.0) then
    {| Locals.result := Normal;
       Locals.riskScore := pallorIndex * 50;
       Locals.confidence := 92 + random * 6;
       Locals.explanation :=
         [Lit "Color analysis indicates healthy skin coloration with good red blood cell oxygenation. Red channel intensity (";
          Rounded r;
          Lit ") and overall color balance suggest normal hemoglobin levels around ";
          Fixed 1 hemoglobinEstimate; Lit " g/dL."];
       Locals.recommendations :=
         ["Continue maintaining a balanced diet rich in iron, vitamin B12, and folate";
          "Regular physical activity to support healthy circulation";
          "Monitor for any changes in energy levels, skin color, or symptoms";
          "Consider routine blood work in 6-12 months for preventive screening"]%string;
       Locals.detailedFindings :=
         [[Lit "Normal red channel intensity: "; Rounded r; Lit "/255"];
          [Lit "Healthy pallor index: "; Fixed 2 pallorIndex; Lit " (normal < 0.3)"];
          [Lit "Estimated hemoglobin: "; Fixed 1 hemoglobinEstimate;
           Lit " g/dL (normal range)"]];
       Locals.focusAreas := [] |}
  else if (pallorIndex <? 0.4) && (hemoglobinEstimate >=? 10.0) then
    {| Locals.result := MildRisk;
       Locals.riskScore := 25 + pallorIndex * 40;
       Locals.confidence := 87 + random * 8;
       Locals.explanation :=
         [Lit "Mild pallor detected with slightly reduced red coloration. This may indicate early-stage iron deficiency or mild anemia. The estimated hemoglobin level of ";
          Fixed 1 hemoglobinEstimate;
          Lit " g/dL suggests monitoring is recommended."];
       Locals.recommendations :=
         ["Increase iron-rich foods (lean meats, spinach, lentils, fortified cereals)";
          "Consider vitamin C with iron-rich meals to enhance absorption";
          "Monitor symptoms like fatigue, weakness, or shortness of breath";
          "Schedule blood work (CBC with iron studies) within 2-4 weeks";
          "Consult healthcare provider if symptoms worsen"]%string;
       Locals.detailedFindings :=
         [[Lit "Reduced red intensity: "; Rounded r; Lit "/255 (below optimal)"];
          [Lit "Mild pallor index: "; Fixed 2 pallorIndex;
           Lit " (elevated but manageable)"];
          [Lit "Estimated hemoglobin: "; Fixed 1 hemoglobinEstimate;
           Lit " g/dL (borderline low)"]];
       Locals.focusAreas := [30; 40; 50; 60] |}
  else if (pallorIndex <? 0.6) && (hemoglobinEstimate >=? 8.0) then
    {| Locals.result := HighRisk;
       Locals.riskScore := 55 + pallorIndex * 30;
       Locals.confidence := 89 + random * 6;
       Locals.explanation :=
         [Lit "Significant pallor detected indicating probable anemia. Color analysis shows markedly reduced red coloration and overall paleness consistent with moderate anemia. Estimated hemoglobin of ";
          Fixed 1 hemoglobinEstimate; Lit " g/dL requires medical attention."];
       Locals.recommendations :=
         ["Seek immediate medical evaluation for comprehensive blood work";
          "Iron supplementation may be necessary (under medical supervision)";
          "Investigate underlying causes (dietary, gastrointestinal, gynecological)";
          "Monitor symptoms closely (fatigue, dizziness, rapid heartbeat)";
          "Consider iron-rich diet modifications while awaiting medical care"]%string;
       Locals.detailedFindings :=
         [[Lit "Significantly reduced red intensity: "; Rounded r; Lit "/255"];
          [Lit "High pallor index: "; Fixed 2 pallorIndex;
           Lit " (concerning level)"];
          [Lit "Low estimated hemoglobin: "; Fixed 1 hemoglobinEstimate;
           Lit " g/dL (likely anemic)"];
          [Lit "Color pattern consistent with iron deficiency anemia"]];
       Locals.focusAreas := [20; 30; 40; 50; 60; 70] |}
  else
    {| Locals.result := SevereRisk;
       Locals.riskScore := 75 + pallorIndex * 25;
       Locals.confidence := 94 + random * 4;
       Locals.explanation :=
         [Lit "Severe pallor detected indicating significant anemia requiring immediate medical attention. The marked absence of red coloration and overall pale appearance suggests severely reduced hemoglobin levels around ";
          Fixed 1 hemoglobinEstimate; Lit " g/dL."];
       Locals.recommendations :=
         ["URGENT: Seek immediate medical attention or emergency care";
          "Comprehensive blood work and medical evaluation required";
          "May require iron infusion or other aggressive treatment";
          "Investigate serious underlying causes (bleeding, malabsorption, chronic disease)";
          "Monitor for severe symptoms (chest pain, severe fatigue, fainting)"]%string;
       Locals.detailedFindings :=
         [[Lit "Severely reduced red intensity: "; Rounded r; Lit "/255 (critical)"];
          [Lit "Very high pallor index: "; Fixed 2 pallorIndex; Lit " (severe)"];
          [Lit "Very low estimated hemoglobin: "; Fixed 1 hemoglobinEstimate;
           Lit " g/dL (severely anemic)"];
          [Lit "Color pattern indicates severe iron deficiency or other serious anemia"]];
       Locals.focusAreas := [10; 20; 30; 40; 50; 60; 70; 80] |}.

(** The [return] statement: [riskScore: Math.round(riskScore)] and
    [confidence: Math.round(confidence * 10) / 10]. *)
Definition assessAnemiaRisk (random : Q)
    (pallorIndex hemoglobinEstimate r g b : Q) : Assessment.t :=
  let l := assessBranch random pallorIndex hemoglobinEstimate r g b in
  {| Assessment.result := Locals.result l;
     Assessment.riskScore := JS.round (Locals.riskScore l);
     Assessment.confidence :=
       inject_Z (JS.round (Locals.confidence l * 10)) / 10;
     Assessment.explanation := Locals.explanation l;
     Assessment.recommendations := Locals.recommendations l;
     Assessment.detailedFindings := Locals.detailedFindings l;
     Assessment.focusAreas := Locals.focusAreas l |}.

(** ** isSkinPixel *)

(** The hue in degrees, as [isSkinPixel] computes it from RGB. *)
Definition skinHue (r g b : Q) : Q :=
  let max := JS.max3 r g b in
  let min := JS.min3 r g b in
  let delta := max - min in
  let h :=
    if delta !== 0 then
      if max === r then JS.rem ((g - b) / delta) 6
      else if max === g then (b - r) / delta + 2
      else (r - g) / delta + 4
    else 0 in
  JS.rem (h * 60 + 360) 360.

(** [s = max === 0 ? 0 : delta / max] *)
Definition skinSaturation (r g b : Q) : Q :=
  let max := JS.max3 r g b in
  let min := JS.min3 r g b in
  let delta := max - min in
  if max === 0 then 0 else delta / max.

(** [v = max / 255] *)
Definition skinValue (r g b : Q) : Q := JS.max3 r g b / 255.

(** The RGB-based check of [isSkinPixel]. *)
Definition rgbSkinCheck (r g b : Q) : bool :=
  (r >? 95) && (g >? 40) && (b >? 20) &&
  (JS.max3 r g b - JS.min3 r g b >? 15) &&
  (Qabs (r - g) >? 15) && (r >? g) && (r >? b).

Definition isSkinPixel (r g b : Q) : Q :=
  let h := skinHue r g b in
  let s := skinSaturation r g b in
  let v := skinValue r g b in
  let skinHueRange1 := (h >=? 0) && (h <=? 25) in
  let skinHueRange2 := (h >=? 340) && (h <=? 360) in
  let skinSatRange := (s >=? 0.15) && (s <=? 0.68) in
  let skinValRange := (v >=? 0.35) && (v <=? 0.95) in
  let rgbSkinCheck := rgbSkinCheck r g b in
  if (skinHueRange1 || skinHueRange2) && skinSatRange && skinValRange
     && rgbSkinCheck then 0.9
  else if rgbSkinCheck then 0.7
  else if (skinHueRange1 || skinHueRange2) && skinSatRange then 0.5
  else 0.0.

(** ** calculatePallorIndex and estimateHemoglobin *)

(** The three local constants of [calculatePallorIndex]. *)
Definition redDeficiency (r : Q) : Q := Qmax 0 ((200 - r) / 200).
Definition overallPaleness (brightness : Q) : Q :=
  Qmax 0 ((220 - brightness) / 220).
Definition colorBalance (r g : Q) : Q := Qabs (r - g) / 255.

Definition calculatePallorIndex (r g b brightness : Q) : Q :=
  let redDeficiency := redDeficiency r in
  let overallPaleness := overallPaleness brightness in
  let colorBalance := colorBalance r g in
  redDeficiency * 0.5 + overallPaleness * 0.3 + (1 - colorBalance) * 0.2.

Definition estimateHemoglobin (r g b pallorIndex : Q) : Q :=
  let baseHemoglobin := 14.0 in
  let redContribution := (r / 255) * 4.0 in
  let pallorReduction := pallorIndex * 6.0 in
  let estimated := baseHemoglobin + redContribution - pallorReduction in
  Qmax 4.0 (Qmin 18.0 estimated).

(** ** The sampling loop of analyzeAnemiaFromImage *)

(** [totalR], [totalG], [totalB], [totalBrightness], [skinPixelCount]. *)
Record Accumulator : Type := mkAcc {
  totalR : Q;
  totalG : Q;
  totalB : Q;
  totalBrightness : Q;
  skinPixelCount : Q
}.

Definition emptyAccumulator : Accumulator := mkAcc 0 0 0 0 0.

(** The body of the [if (skinLikelihood > 0.6)] statement. *)
Definition accumulate (r g b : Q) (acc : Accumulator) : Accumulator :=
  {| totalR := totalR acc + r;
     totalG := totalG acc + g;
     totalB := totalB acc + b;
     totalBrightness := totalBrightness acc + (r + g + b) / 3;
     skinPixelCount := skinPixelCount acc + 1 |}.

(** The skin test on one pixel whose alpha passed. *)
Definition classifyPixel (r g b : Q) (acc : Accumulator) : Accumulator :=
  let skinLikelihood := isSkinPixel r g b in
  if skinLikelihood >? 0.6 then accumulate r g b acc else acc.

(** One iteration of the loop at byte offset [i] of the
    [Uint8ClampedArray].  A read past the end yields [undefined]:
    [undefined < 128] is false, so the pixel is not skipped, and
    [isSkinPixel] on an [undefined] channel returns 0.0 because every one
    of its comparisons is then false. *)
Definition samplePixel (pixels : list Z) (i : nat) (acc : Accumulator)
  : Accumulator :=
  let classify :=
    match nth_error pixels i, nth_error pixels (i + 1),
          nth_error pixels (i + 2) with
    | Some r, Some g, Some b =>
        classifyPixel (inject_Z r) (inject_Z g) (inject_Z b) acc
    | _, _, _ => acc
    end in
  match nth_error pixels (i + 3) with
  | Some alpha => if inject_Z alpha <? 128 then acc else classify
  | None => classify
  end.

(** The offsets [i = 0, 16, 32, ...] with [i < pixels.length]. *)
Definition sampleOffsets (len : nat) : list nat :=
  map (fun k => 16 * k)%nat (seq 0 ((len + 15) / 16)%nat).

(** [for (let i = 0; i < pixels.length; i += 16) { ... }] *)
Definition samplePixels (pixels : list Z) : Accumulator :=
  fold_left (fun acc i => samplePixel pixels i acc)
            (sampleOffsets (List.length pixels)) emptyAccumulator.

(** ** Rasters, the canvas and generateGradCAM *)

(** A decoded image, or the bitmap of the canvas it was drawn on: its
    dimensions (at least one pixel each way) and the RGBA bytes that
    [getImageData(0, 0, width, height).data] exposes. *)
Record Raster : Type := mkRaster {
  width : positive;
  height : positive;
  data : list Z
}.

Definition px (n : positive) : Q := inject_Z (Z.pos n).

(** [`rgba(${r}, ${g}, ${b}, ${a})`] *)
Inductive CssColor : Type :=
| rgba (r g b : Z) (a : Q).

(** [createRadialGradient(x0, y0, r0, x1, y1, r1)] followed by its
    [addColorStop(offset, color)] calls, in order. *)
Record RadialGradient : Type := mkGradient {
  x0 : Q; y0 : Q; r0 : Q;
  x1 : Q; y1 : Q; r1 : Q;
  colorStops : list (Q * CssColor)
}.

Definition addColorStop (offset : Q) (color : CssColor)
    (gradient : RadialGradient) : RadialGradient :=
  mkGradient (x0 gradient) (y0 gradient) (r0 gradient)
             (x1 gradient) (y1 gradient) (r1 gradient)
             (colorStops gradient ++ [(offset, color)]).

(** What has been painted on a canvas, oldest first, each operation with
    the [globalAlpha] in force when it ran. *)
Inductive DrawOp : Type :=
| DrawImage (alpha : Q) (source : Raster) (dx dy : Q)
| FillRect (alpha : Q) (style : option RadialGradient) (x y w h : Q).

(** The state of a canvas and of its 2D context. *)
Record Canvas : Type := mkCanvas {
  canvasWidth : positive;
  canvasHeight : positive;
  globalAlpha : Q;
  fillStyle : option RadialGradient;
  painted : list DrawOp
}.

Definition setGlobalAlpha (a : Q) (c : Canvas) : Canvas :=
  mkCanvas (canvasWidth c) (canvasHeight c) a (fillStyle c) (painted c).

Definition setFillStyle (g : RadialGradient) (c : Canvas) : Canvas :=
  mkCanvas (canvasWidth c) (canvasHeight c) (globalAlpha c) (Some g)
           (painted c).

Definition drawImage (source : Raster) (dx dy : Q) (c : Canvas) : Canvas :=
  mkCanvas (canvasWidth c) (canvasHeight c) (globalAlpha c) (fillStyle c)
           (painted c ++ [DrawImage (globalAlpha c) source dx dy]).

Definition fillRect (x y w h : Q) (c : Canvas) : Canvas :=
  mkCanvas (canvasWidth c) (canvasHeight c) (globalAlpha c) (fillStyle c)
           (painted c ++ [FillRect (globalAlpha c) (fillStyle c) x y w h]).

(** The string [generateGradCAM] returns: the empty string, or the
    encoding [toDataURL()] makes of a canvas bitmap, kept as the bitmap's
    dimensions and what was painted on it. *)
Inductive DataURL : Type :=
| EmptyString
| EncodedRaster (w h : positive) (content : list DrawOp).

Definition toDataURL (c : Canvas) : DataURL :=
  EncodedRaster (canvasWidth c) (canvasHeight c) (painted c).

(** The dimensions of the raster a data URL encodes, if it encodes one. *)
Definition rasterSize (u : DataURL) : option (positive * positive) :=
  match u with
  | EmptyString => None
  | EncodedRaster w h _ => Some (w, h)
  end.

(** The callback of [focusAreas.forEach((intensity, index) => ...)]. *)
Definition paintFocusArea (canvas : Raster) (gradCtx : Canvas)
    (intensity : Q) (index : nat) : Canvas :=
  let idx := inject_Z (Z.of_nat index) in
  let x := JS.rem idx 3 * (px (width canvas) / 3) in
  let y := inject_Z (JS.floor (idx / 3)) * (px (height canvas) / 3) in
  let width := px (width canvas) / 3 in
  let height := px (height canvas) / 3 in
  let gradient :=
    mkGradient (x + width / 2) (y + height / 2) 0
               (x + width / 2) (y + height / 2) (width / 2) [] in
  let alpha := intensity / 100 in
  let gradient := addColorStop 0 (rgba 255 0 0 alpha) gradient in
  let gradient := addColorStop 0.5 (rgba 255 165 0 (alpha * 0.7)) gradient in
  let gradient := addColorStop 1 (rgba 255 255 0 (alpha * 0.3)) gradient in
  let gradCtx := setFillStyle gradient gradCtx in
  fillRect x y width height gradCtx.

(** [forEach] from index [index] on. *)
Fixpoint forEachFocusArea (canvas : Raster) (focusAreas : list Q)
    (index : nat) (gradCtx : Canvas) : Canvas :=
  match focusAreas with
  | [] => gradCtx
  | intensity :: rest =>
      forEachFocusArea canvas rest (S index)
        (paintFocusArea canvas gradCtx intensity index)
  end.

(** [gradContext] tells whether [gradCanvas.getContext('2d')] returned a
    context; a fresh canvas has [globalAlpha = 1] and nothing painted. *)
Definition generateGradCAM (gradContext : bool) (canvas : Raster)
    (focusAreas : list Q) : DataURL :=
  if negb gradContext then EmptyString
  else
    let gradCtx := mkCanvas (width canvas) (height canvas) 1 None [] in
    let gradCtx := setGlobalAlpha 0.6 gradCtx in
    let gradCtx := drawImage canvas 0 0 gradCtx in
    let gradCtx := setGlobalAlpha 0.4 gradCtx in
    let gradCtx := forEachFocusArea canvas focusAreas 0 gradCtx in
    toDataURL gradCtx.

(** ** The analysis result, getDefaultResult and analyzeAnemiaFromImage *)

Record ColorAnalysis : Type := mkColorAnalysis {
  redChannel : Z;
  greenChannel : Z;
  blueChannel : Z;
  avgBrightness : Z;
  pallorIndex : Q;
  hemoglobinEstimate : Q
}.

(** [interface AnalysisResult]; [timestamp] is a clock reading in
    milliseconds. *)
Record AnalysisResult : Type := mkResult {
  confidence : Q;
  riskScore : Z;
  result : RiskTier;
  explanation : Text;
  recommendations : list string;
  gradCamUrl : DataURL;
  timestamp : Z;
  colorAnalysis : ColorAnalysis;
  detailedFindings : list Text
}.

(** [now] is the value of [new Date()] when the record is built. *)
Definition getDefaultResult (now : Z) : AnalysisResult :=
  {| confidence := 85.0;
     riskScore := 25;
     result := MildRisk;
     explanation :=
       [Lit "Unable to perform detailed color analysis. Please ensure good lighting and clear skin visibility for more accurate results."];
     recommendations :=
       ["Retake image with better lighting and clearer skin visibility";
        "Consider professional medical evaluation if symptoms persist";
        "Monitor for signs of fatigue, weakness, or pale appearance"]%string;
     gradCamUrl := EmptyString;
     timestamp := now;
     colorAnalysis :=
       {| redChannel := 0;
          greenChannel := 0;
          blueChannel := 0;
          avgBrightness := 0;
          pallorIndex := 0;
          hemoglobinEstimate := 0 |};
     detailedFindings :=
       [[Lit "Color analysis unavailable due to image processing error"]] |}.

(** What the browser does with [img.src = imageData]: [img.onerror] fires,
    or [img.onload] fires with a decoded image. *)
Inductive ImageLoad : Type :=
| LoadError
| Loaded (img : Raster).

(** Whether each of the two [getContext('2d')] calls returns a context. *)
Record Browser : Type := mkBrowser {
  canvasContext : bool;
  gradCanvasContext : bool
}.

(** The part of [img.onload] after the sampling loop found skin pixels. *)
Definition analyzeSkin (env : Browser) (random : Q) (now : Z)
    (canvas : Raster) (acc : Accumulator) : AnalysisResult :=
  let avgR := totalR acc / skinPixelCount acc in
  let avgG := totalG acc / skinPixelCount acc in
  let avgB := totalB acc / skinPixelCount acc in
  let avgBright := totalBrightness acc / skinPixelCount acc in
  let pallor := calculatePallorIndex avgR avgG avgB avgBright in
  let hemoglobin := estimateHemoglobin avgR avgG avgB pallor in
  let riskAssessment := assessAnemiaRisk random pallor hemoglobin avgR avgG avgB in
  {| confidence := Assessment.confidence riskAssessment;
     riskScore := Assessment.riskScore riskAssessment;
     result := Assessment.result riskAssessment;
     explanation := Assessment.explanation riskAssessment;
     recommendations := Assessment.recommendations riskAssessment;
     gradCamUrl :=
       generateGradCAM (gradCanvasContext env) canvas
                       (Assessment.focusAreas riskAssessment);
     timestamp := now;
     colorAnalysis :=
       {| redChannel := JS.round avgR;
          greenChannel := JS.round avgG;
          blueChannel := JS.round avgB;
          avgBrightness := JS.round avgBright;
          pallorIndex := inject_Z (JS.round (pallor * 100)) / 100;
          hemoglobinEstimate := inject_Z (JS.round (hemoglobin * 10)) / 10 |};
     detailedFindings := Assessment.detailedFindings riskAssessment |}.

(** The promise [analyzeAnemiaFromImage] returns settles exactly once, by
    [resolve]; the value it resolves with is the function's result here. *)
Definition analyzeAnemiaFromImage (env : Browser) (random : Q) (now : Z)
    (imageData : ImageLoad) : AnalysisResult :=
  match imageData with
  | LoadError => getDefaultResult now
  | Loaded img =>
      if negb (canvasContext env) then getDefaultResult now
      else
        let canvas := img in
        let pixels := data canvas in
        let acc := samplePixels pixels in
        if skinPixelCount acc === 0 then getDefaultResult now
        else analyzeSkin env random now canvas acc
  end.

(** ** Numbers with NaN and the infinities *)

Module JSNumber.

(** A JavaScript number that is not necessarily finite.  Finite values are
    exact rationals; rounding, overflow and the sign of zero are left
    out. *)
Inductive t : Type :=
| NaN
| NegInf
| Fin (q : Q)
| PosInf.

(** [-x] *)
Definition neg (x : t) : t :=
  match x with
  | NaN => NaN
  | NegInf => PosInf
  | Fin q => Fin (- q)
  | PosInf => NegInf
  end.

(** [x + y]: the sum of opposite infinities is NaN. *)
Definition add (x y : t) : t :=
  match x, y with
  | NaN, _ | _, NaN => NaN
  | Fin a, Fin b => Fin (a + b)
  | PosInf, NegInf | NegInf, PosInf => NaN
  | PosInf, _ | _, PosInf => PosInf
  | NegInf, _ | _, NegInf => NegInf
  end.

(** [x - y]: the difference of equal infinities is NaN. *)
Definition sub (x y : t) : t :=
  match x, y with
  | Fin a, Fin b => Fin (a - b)
  | _, _ => add x (neg y)
  end.

(** The infinity of the given sign. *)
Definition signed (positive : bool) : t :=
  if positive then PosInf else NegInf.

(** [x * y]: zero times an infinity is NaN. *)
Definition mul (x y : t) : t :=
  match x, y with
  | NaN, _ | _, NaN => NaN
  | Fin a, Fin b => Fin (a * b)
  | PosInf, PosInf | NegInf, NegInf => PosInf
  | PosInf, NegInf | NegInf, PosInf => NegInf
  | PosInf, Fin q | Fin q, PosInf =>
      if Qeq_bool q 0 then NaN else signed (Qle_bool 0 q)
  | NegInf, Fin q | Fin q, NegInf =>
      if Qeq_bool q 0 then NaN else signed (negb (Qle_bool 0 q))
  end.

(** [x / y]: an infinity over an infinity and zero over zero are NaN; a
    zero divisor counts as positive zero. *)
Definition div (x y : t) : t :=
  match x, y with
  | NaN, _ | _, NaN => NaN
  | Fin a, Fin b =>
      if Qeq_bool b 0 then
        if Qeq_bool a 0 then NaN else signed (Qle_bool 0 a)
      else Fin (a / b)
  | Fin _, _ => Fin 0
  | PosInf, Fin q => signed (Qle_bool 0 q)
  | NegInf, Fin q => signed (negb (Qle_bool 0 q))
  | _, _ => NaN
  end.

(** [Math.min(x, y)] and [Math.max(x, y)]: NaN if either argument is. *)
Definition min (x y : t) : t :=
  match x, y with
  | NaN, _ | _, NaN => NaN
  | Fin a, Fin b => Fin (Qmin a b)
  | NegInf, _ | _, NegInf => NegInf
  | PosInf, z | z, PosInf => z
  end.

Definition max (x y : t) : t :=
  match x, y with
  | NaN, _ | _, NaN => NaN
  | Fin a, Fin b => Fin (Qmax a b)
  | PosInf, _ | _, PosInf => PosInf
  | NegInf, z | z, NegInf => z
  end.

(** [estimateHemoglobin] on every number the type [number] holds. *)
Definition estimateHemoglobin (r g b pallorIndex : t) : t :=
  let baseHemoglobin := Fin 14.0 in
  let redContribution := mul (div r (Fin 255)) (Fin 4.0) in
  let pallorReduction := mul pallorIndex (Fin 6.0) in
  let estimated := sub (add baseHemoglobin redContribution) pallorReduction in
  max (Fin 4.0) (min (Fin 18.0) estimated).

End JSNumber.

(** ** validateImageFile and handleImageSelection *)

(** [file.type] and [file.size] of a [File]. *)
Record File : Type := mkFile {
  fileType : string;
  fileSize : Z
}.

Definition validTypes : list string :=
  ["image/jpeg"; "image/png"; "image/webp"]%string.

Definition maxSize : Z := 10 * 1024 * 1024.

(** [Array.prototype.includes] on strings. *)
Definition includes (l : list string) (s : string) : bool :=
  existsb (String.eqb s) l.

(** [null] is [None]. *)
Definition validateImageFile (file : File) : option string :=
  if negb (includes validTypes (fileType file)) then
    Some "Please upload a valid image file (JPEG, PNG, or WebP)"%string
  else if Z.gtb (fileSize file) maxSize then
    Some "Image file size must be less than 10MB"%string
  else None.

(** ** validateSkinImage *)

(** A string built by a template literal: its literal parts and the
    numbers interpolated into it. *)
Inductive Part : Type :=
| Str (s : string)
| Num (x : Q).

Definition Message : Type := list Part.

(** Whether a message is a truthy string, that is, not empty; a number
    always prints at least one character. *)
Definition truthy (m : Message) : bool :=
  existsb (fun part => match part with
                       | Str s => negb (String.eqb s "")
                       | Num _ => true
                       end) m.

(** The object [analysis]: the JSON of the reply with the fields and the
    types the prompt asks for, or the object the fallback parsing builds. *)
Module SkinAnalysis.
Record t : Type := mk {
  isValid : bool;
  skinPercentage : Q;
  reason : option Message;
  skinType : string;
  imageQuality : string;
  hasProperLighting : bool
}.
End SkinAnalysis.

(** The object [validateSkinImage] resolves with. *)
Module SkinValidation.
Record t : Type := mk {
  isValid : bool;
  reason : option Message;
  skinPercentage : Q
}.
End SkinValidation.

(** The [catch (parseError)] block: [isValidMatch] tells whether the
    lower-cased text includes both 'true' and 'valid',
    [skinPercentageMatch] is the [parseInt] of the digits before the first
    '%' when the text has some. *)
Definition fallbackAnalysis (isValidMatch : bool)
    (skinPercentageMatch : option N) : SkinAnalysis.t :=
  {| SkinAnalysis.isValid :=
       isValidMatch
       && match skinPercentageMatch with
          | Some n => inject_Z (Z.of_N n) >=? 30
          | None => false
          end;
     SkinAnalysis.skinPercentage :=
       match skinPercentageMatch with
       | Some n => inject_Z (Z.of_N n)
       | None => 0
       end;
     SkinAnalysis.reason :=
       if isValidMatch then None
       else Some [Str "Image validation failed - insufficient skin content or poor quality"];
     SkinAnalysis.skinType := "unknown"%string;
     SkinAnalysis.imageQuality := "unknown"%string;
     SkinAnalysis.hasProperLighting := false |}.

(** From [// Additional strict validation] to the [return] after it. *)
Definition strictValidation (analysis : SkinAnalysis.t) : SkinValidation.t :=
  let pass :=
    {| SkinValidation.isValid := SkinAnalysis.isValid analysis;
       SkinValidation.reason := SkinAnalysis.reason analysis;
       SkinValidation.skinPercentage := SkinAnalysis.skinPercentage analysis |} in
  if SkinAnalysis.isValid analysis then
    if SkinAnalysis.skinPercentage analysis <? 30 then
      {| SkinValidation.isValid := false;
         SkinValidation.reason :=
           Some [Str "Insufficient skin area detected. Only ";
                 Num (SkinAnalysis.skinPercentage analysis);
                 Str "% skin found. Need at least 30% skin coverage for accurate analysis."];
         SkinValidation.skinPercentage := SkinAnalysis.skinPercentage analysis |}
    else if String.eqb (SkinAnalysis.imageQuality analysis) "poor" then
      {| SkinValidation.isValid := false;
         SkinValidation.reason :=
           Some [Str "Image quality is too poor for accurate analysis. Please ensure good lighting and focus."];
         SkinValidation.skinPercentage := SkinAnalysis.skinPercentage analysis |}
    else if negb (SkinAnalysis.hasProperLighting analysis) then
      {| SkinValidation.isValid := false;
         SkinValidation.reason :=
           Some [Str "Inadequate lighting detected. Please capture image in natural, even lighting for accurate color analysis."];
         SkinValidation.skinPercentage := SkinAnalysis.skinPercentage analysis |}
    else pass
  else pass.

(** What came back from the request: an error thrown in the [try] block
    (the fetch failed, the status was not ok, the reply had no text), a
    reply whose JSON parsed, or one that went to the fallback parsing. *)
Inductive GeminiReply : Type :=
| RequestFailed
| Parsed (analysis : SkinAnalysis.t)
| Unparsed (isValidMatch : bool) (skinPercentageMatch : option N).

Definition validateSkinImage (reply : GeminiReply) : SkinValidation.t :=
  match reply with
  | RequestFailed =>
      {| SkinValidation.isValid := false;
         SkinValidation.reason :=
           Some [Str "Unable to validate image with AI. Please ensure you're uploading a clear image of human skin and try again."];
         SkinValidation.skinPercentage := 0 |}
  | Parsed analysis => strictValidation analysis
  | Unparsed isValidMatch skinPercentageMatch =>
      strictValidation (fallbackAnalysis isValidMatch skinPercentageMatch)
  end.

(** ** The state of the page, runAnalysis and the results panel *)

Inductive AnalysisStep : Type :=
| capture
| processing
| validation
| inference
| results.

(** The [useState] values of [AnalysisPage] that the analysis touches. *)
Record PageState : Type := mkPage {
  currentStep : AnalysisStep;
  selectedImage : option File;
  imagePreview : option string;
  analysisProgress : Z;
  analysisResult : option AnalysisResult;
  isAnalyzing : bool;
  validationError : option Message
}.

Definition setCurrentStep (v : AnalysisStep) (s : PageState) : PageState :=
  mkPage v (selectedImage s) (imagePreview s) (analysisProgress s)
         (analysisResult s) (isAnalyzing s) (validationError s).

Definition setSelectedImage (v : option File) (s : PageState) : PageState :=
  mkPage (currentStep s) v (imagePreview s) (analysisProgress s)
         (analysisResult s) (isAnalyzing s) (validationError s).

Definition setAnalysisProgress (v : Z) (s : PageState) : PageState :=
  mkPage (currentStep s) (selectedImage s) (imagePreview s) v
         (analysisResult s) (isAnalyzing s) (validationError s).

Definition setAnalysisResult (v : option AnalysisResult) (s : PageState)
  : PageState :=
  mkPage (currentStep s) (selectedImage s) (imagePreview s)
         (analysisProgress s) v (isAnalyzing s) (validationError s).

Definition setIsAnalyzing (v : bool) (s : PageState) : PageState :=
  mkPage (currentStep s) (selectedImage s) (imagePreview s)
         (analysisProgress s) (analysisResult s) v (validationError s).

Definition setValidationError (v : option Message) (s : PageState)
  : PageState :=
  mkPage (currentStep s) (selectedImage s) (imagePreview s)
         (analysisProgress s) (analysisResult s) (isAnalyzing s) v.

(** The state updates of [handleImageSelection]; the preview is set
    later, when the [FileReader] has read the file. *)
Definition handleImageSelection (file : File) (s : PageState) : PageState :=
  match validateImageFile file with
  | Some error => setValidationError (Some [Str error]) s
  | None => setSelectedImage (Some file) (setValidationError None s)
  end.

(** [validation.reason || 'Image validation failed'] *)
Definition reasonOrDefault (reason : option Message) : Message :=
  match reason with
  | Some m => if truthy m then m else [Str "Image validation failed"]
  | None => [Str "Image validation failed"]
  end.

(** The state updates of [runAnalysis], in order, given what the two
    awaited calls resolve with; neither of them rejects, so the [catch]
    block is not entered.  The toasts and the pauses, which leave the
    state alone, are left out. *)
Definition runAnalysis (reply : GeminiReply) (analysis : AnalysisResult)
    (s : PageState) : PageState :=
  match selectedImage s, imagePreview s with
  | Some _, Some preview =>
      if String.eqb preview "" then s
      else
        let s := setIsAnalyzing true s in
        let s := setCurrentStep processing s in
        let s := setAnalysisProgress 0 s in
        let s := setCurrentStep validation s in
        let s := setAnalysisProgress 15 s in
        let validation := validateSkinImage reply in
        if negb (SkinValidation.isValid validation) then
          let s := setValidationError
                     (Some (reasonOrDefault (SkinValidation.reason validation)))
                     s in
          let s := setCurrentStep capture s in
          let s := setIsAnalyzing false s in
          setIsAnalyzing false s
        else
          let s := setAnalysisProgress 35 s in
          let s := setCurrentStep inference s in
          let s := setAnalysisProgress 50 s in
          let s := setAnalysisProgress 75 s in
          let s := setAnalysisProgress 90 s in
          let s := setAnalysisProgress 100 s in
          let s := setAnalysisResult (Some analysis) s in
          let s := setCurrentStep results s in
          setIsAnalyzing false s
  | _, _ => s
  end.

(** The colour classes of the pallor index and of the hemoglobin estimate
    in the results panel. *)
Definition pallorClass (a : AnalysisResult) : string :=
  if pallorIndex (colorAnalysis a) >? 0.5 then "text-red-600"%string
  else if pallorIndex (colorAnalysis a) >? 0.3 then "text-yellow-600"%string
  else "text-green-600"%string.

Definition hemoglobinClass (a : AnalysisResult) : string :=
  if hemoglobinEstimate (colorAnalysis a) <? 10 then "text-red-600"%string
  else if hemoglobinEstimate (colorAnalysis a) <? 12 then "text-yellow-600"%string
  else "text-green-600"%string.

(** * Vocabulary of the properties *)

(** The four rows of the cascade, each with the negation of the rows
    above it. *)
Definition normalRow (p h : Q) : Prop := p < 0.2 /\ 12.0 <= h.
Definition mildRow (p h : Q) : Prop :=
  ~ normalRow p h /\ p < 0.4 /\ 10.0 <= h.
Definition highRow (p h : Q) : Prop :=
  ~ normalRow p h /\ ~ (p < 0.4 /\ 10.0 <= h) /\ p < 0.6 /\ 8.0 <= h.
Definition severeRow (p h : Q) : Prop :=
  ~ normalRow p h /\ ~ (p < 0.4 /\ 10.0 <= h) /\ ~ (p < 0.6 /\ 8.0 <= h).

(** What one row fixes in the branch's locals. *)
Definition rowOutcome (l : Locals.t) (tier : RiskTier) (score : Q)
    (areas : nat) : Prop :=
  Locals.result l = tier /\ Locals.riskScore l = score
  /\ List.length (Locals.focusAreas l) = areas.

(** An average of byte-valued channels. *)
Definition validAverage (x : Q) : Prop := 0 <= x <= 255.

(** The unrounded score [score] can come out in tier [tier]: some averages
    in [0, 255] and some hemoglobin estimate lead the classifier there. *)
Definition achievable (tier : RiskTier) (score : Q) : Prop :=
  exists random r g b brightness h : Q,
    validAverage r /\ validAverage g /\ validAverage brightness
    /\ let l := assessBranch random (calculatePallorIndex r g b brightness)
                             h r g b in
       Locals.result l = tier /\ Locals.riskScore l = score.

(** The conversion from RGB to HSV that the specification refers to, in
    its usual form: channels on the 0-255 scale, the hue in degrees by the
    sextant of the largest channel, the saturation as one minus the ratio
    of the smallest to the largest channel, the value as the largest
    channel over 255. *)
Module HSV.

Definition hue (r g b : Q) : Q :=
  let M := Qmax (Qmax r g) b in
  let m := Qmin (Qmin r g) b in
  let c := M - m in
  if Qeq_bool c 0 then 0
  else if Qeq_bool M r then
         if Qle_bool b g then 60 * ((g - b) / c)
         else 360 - 60 * ((b - g) / c)
  else if Qeq_bool M g then 120 + 60 * ((b - r) / c)
  else 240 + 60 * ((r - g) / c).

Definition saturation (r g b : Q) : Q :=
  let M := Qmax (Qmax r g) b in
  let m := Qmin (Qmin r g) b in
  if Qeq_bool M 0 then 0 else 1 - m / M.

Definition value (r g b : Q) : Q := Qmax (Qmax r g) b / 255.

End HSV.

(** The ranges and the heuristic, as propositions about one pixel. *)
Definition hueInSkinRange (r g b : Q) : Prop :=
  let h := HSV.hue r g b in
  (0 <= h /\ h <= 25) \/ (340 <= h /\ h <= 360).

Definition saturationInSkinRange (r g b : Q) : Prop :=
  let s := HSV.saturation r g b in 0.15 <= s /\ s <= 0.68.

Definition valueInSkinRange (r g b : Q) : Prop :=
  let v := HSV.value r g b in 0.35 <= v /\ v <= 0.95.

Definition hsvRanges (r g b : Q) : Prop :=
  hueInSkinRange r g b /\ saturationInSkinRange r g b
  /\ valueInSkinRange r g b.

Definition rgbHeuristic (r g b : Q) : Prop :=
  95 < r /\ 40 < g /\ 20 < b
  /\ 15 < JS.max3 r g b - JS.min3 r g b
  /\ 15 < Qabs (r - g) /\ g < r /\ b < r.

(** The boolean tests of [isSkinPixel]. *)
Definition skinHueRange (r g b : Q) : bool :=
  let h := skinHue r g b in
  ((h >=? 0) && (h <=? 25)) || ((h >=? 340) && (h <=? 360)).

Definition skinSatRange (r g b : Q) : bool :=
  let s := skinSaturation r g b in (s >=? 0.15) && (s <=? 0.68).

Definition skinValRange (r g b : Q) : bool :=
  let v := skinValue r g b in (v >=? 0.35) && (v <=? 0.95).

(** The [continue] of the loop: alpha is there and below 128. *)
Definition skippedAt (pixels : list Z) (i : nat) : bool :=
  match nth_error pixels (i + 3) with
  | Some alpha => inject_Z alpha <? 128
  | None => false
  end.

(** A raster of the right size whose every pixel has alpha 0. *)
Definition fullyTransparent (img : Raster) : Prop :=
  let pixelCount := (Pos.to_nat (width img) * Pos.to_nat (height img))%nat in
  List.length (data img) = (4 * pixelCount)%nat
  /\ forall k : nat, (k < pixelCount)%nat ->
                     nth_error (data img) (4 * k + 3) = Some 0%Z.

(** Two results that agree on every field but the confidence and the
    timestamp. *)
Definition sameAnalysis (a1 a2 : AnalysisResult) : Prop :=
  result a1 = result a2
  /\ riskScore a1 = riskScore a2
  /\ colorAnalysis a1 = colorAnalysis a2
  /\ explanation a1 = explanation a2
  /\ recommendations a1 = recommendations a2
  /\ gradCamUrl a1 = gradCamUrl a2
  /\ detailedFindings a1 = detailedFindings a2.

(** Offset [i] is visited by the loop and not skipped as transparent. *)
Definition sampledOpaque (pixels : list Z) (i : nat) : Prop :=
  In i (sampleOffsets (List.length pixels)) /\ skippedAt pixels i = false.

(** The channels at offset [i]. *)
Definition pixelIs (pixels : list Z) (i : nat) (r g b : Z) : Prop :=
  nth_error pixels i = Some r
  /\ nth_error pixels (i + 1) = Some g
  /\ nth_error pixels (i + 2) = Some b.

(** Every sampled opaque pixel is R=220, G=170, B=140. *)
Definition midToneSkin (pixels : list Z) : Prop :=
  forall i : nat, sampledOpaque pixels i -> pixelIs pixels i 220 170 140.

(** The accumulator after [n] pixels of that colour, up to [==]. *)
Definition skinTotals (n : nat) (acc : Accumulator) : Prop :=
  let q := inject_Z (Z.of_nat n) in
  totalR acc == 220 * q /\ totalG acc == 170 * q /\ totalB acc == 140 * q
  /\ totalBrightness acc == (530 / 3) * q /\ skinPixelCount acc == q.

(** The number of offsets of [offsets] the loop does not skip. *)
Definition opaqueCount (pixels : list Z) (offsets : list nat) : nat :=
  List.length (filter (fun i => negb (skippedAt pixels i)) offsets).

(** The averages of an accumulator. *)
Definition averageR (acc : Accumulator) : Q := totalR acc / skinPixelCount acc.
Definition averageG (acc : Accumulator) : Q := totalG acc / skinPixelCount acc.
Definition averageB (acc : Accumulator) : Q := totalB acc / skinPixelCount acc.
Definition averageBrightness (acc : Accumulator) : Q :=
  totalBrightness acc / skinPixelCount acc.

(** The unrounded metrics [img.onload] derives from an accumulator. *)
Definition pallorOf (acc : Accumulator) : Q :=
  calculatePallorIndex (averageR acc) (averageG acc) (averageB acc)
                       (averageBrightness acc).
Definition hemoglobinOf (acc : Accumulator) : Q :=
  estimateHemoglobin (averageR acc) (averageG acc) (averageB acc)
                     (pallorOf acc).

(** The bytes of a [Uint8ClampedArray]. *)
Definition byteRaster (pixels : list Z) : Prop :=
  Forall (fun z => (0 <= z <= 255)%Z) pixels.

(** Every total lies between 0 and 255 times the pixel count. *)
Definition totalsBounded (acc : Accumulator) : Prop :=
  let n := skinPixelCount acc in
  0 <= n
  /\ 0 <= totalR acc <= 255 * n
  /\ 0 <= totalG acc <= 255 * n
  /\ 0 <= totalB acc <= 255 * n
  /\ 0 <= totalBrightness acc <= 255 * n.



(** Two results that agree on every field but the confidence, the
    timestamp and the heatmap. *)
Definition sameVerdict (a1 a2 : AnalysisResult) : Prop :=
  result a1 = result a2
  /\ riskScore a1 = riskScore a2
  /\ colorAnalysis a1 = colorAnalysis a2
  /\ explanation a1 = explanation a2
  /\ recommendations a1 = recommendations a2
  /\ detailedFindings a1 = detailedFindings a2.

(** Offset [i] adds a pixel to the totals: it is not skipped, its three
    channels are there and pass the RGB check. *)
Definition countedAt (pixels : list Z) (i : nat) : bool :=
  negb (skippedAt pixels i)
  && match nth_error pixels i, nth_error pixels (i + 1),
           nth_error pixels (i + 2) with
     | Some r, Some g, Some b =>
         rgbSkinCheck (inject_Z r) (inject_Z g) (inject_Z b)
     | _, _, _ => false
     end.

(** The channels of an accumulated pixel: whole numbers that pass the RGB
    check. *)
Definition skinBytes (r g b : Z) : Prop :=
  (96 <= r /\ 41 <= g /\ 21 <= b /\ g + 16 <= r /\ b + 1 <= r)%Z.

(** Totals of pixels that all pass the RGB check. *)
Definition skinDominated (acc : Accumulator) : Prop :=
  let n := skinPixelCount acc in
  0 <= n
  /\ 96 * n <= totalR acc
  /\ 41 * n <= totalG acc
  /\ 21 * n <= totalB acc
  /\ totalG acc + 16 * n <= totalR acc
  /\ totalB acc + n <= totalR acc.

(** The tier the pallor thresholds alone would give. *)
Definition tierOfPallor (p : Q) : RiskTier :=
  if p <? 0.2 then Normal
  else if p <? 0.4 then MildRisk
  else if p <? 0.6 then HighRisk
  else SevereRisk.

(** The confidence a tier can be reported with. *)
Definition confidenceBand (tier : RiskTier) (c : Q) : Prop :=
  match tier with
  | Normal => 92 <= c <= 98
  | MildRisk => 87 <= c <= 95
  | HighRisk => 89 <= c <= 95
  | SevereRisk => 94 <= c <= 98
  end.

(** The integer scores a tier can be reported with. *)
Definition scoreBand (tier : RiskTier) (s : Z) : Prop :=
  match tier with
  | Normal => (0 <= s <= 10)%Z
  | MildRisk => (33 <= s <= 41)%Z
  | HighRisk => (67 <= s <= 73)%Z
  | SevereRisk => (90 <= s <= 100)%Z
  end.

(** The run took the computed path: image decoded, context obtained, at
    least one skin pixel sampled. *)
Definition computedRun (env : Browser) (imageData : ImageLoad) : Prop :=
  match imageData with
  | LoadError => False
  | Loaded img =>
      canvasContext env = true
      /\ (skinPixelCount (samplePixels (data img)) === 0) = false
  end.

(** The rectangle [x, y, w, h] lies on a canvas of the size of [canvas]. *)
Definition insideCanvas (canvas : Raster) (x y w h : Q) : Prop :=
  0 <= x /\ x + w <= px (width canvas)
  /\ 0 <= y /\ y + h <= px (height canvas).

(** [op] fills, with opacity [alpha], the cell of focus area [index] in a
    grid of three columns whose cells are a third of the canvas each way,
    with a radial gradient centred in the cell, of radius half the cell's
    width, from red through orange to yellow, the three stops at
    [intensity / 100] times 1, 0.7 and 0.3. *)
Definition paintsCell (canvas : Raster) (alpha : Q) (index : nat)
    (intensity : Q) (op : DrawOp) : Prop :=
  match op with
  | FillRect a (Some gradient) x y w h =>
      let column := inject_Z (Z.of_nat (index mod 3)) in
      let row := inject_Z (Z.of_nat (index / 3)) in
      a = alpha
      /\ x == column * (px (width canvas) / 3)
      /\ y == row * (px (height canvas) / 3)
      /\ w == px (width canvas) / 3
      /\ h == px (height canvas) / 3
      /\ x0 gradient == x + w / 2 /\ y0 gradient == y + h / 2
      /\ r0 gradient == 0
      /\ x1 gradient == x + w / 2 /\ y1 gradient == y + h / 2
      /\ r1 gradient == w / 2
      /\ colorStops gradient
         = [(0, rgba 255 0 0 (intensity / 100));
            (0.5, rgba 255 165 0 (intensity / 100 * 0.7));
            (1, rgba 255 255 0 (intensity / 100 * 0.3))]
      /\ (index < 9 <-> insideCanvas canvas x y w h)%nat
  | _ => False
  end.

(** * Properties *)

(** ** Comparisons as propositions *)

Lemma Qle_bool_false (x y : Q) : Qle_bool x y = false -> y < x.
Proof.
  intros E. apply Qnot_le_lt. intros H.
  apply Qle_bool_iff in H. congruence.
Qed.

Lemma lt_true (x y : Q) : (x <? y) = true <-> x < y.
Proof.
  unfold JS.lt. rewrite negb_true_iff. split.
  - apply Qle_bool_false.
  - intros H. destruct (Qle_bool y x) eqn:E; trivial.
    apply Qle_bool_iff in E. lra.
Qed.

Lemma ge_true (x y : Q) : (x >=? y) = true <-> y <= x.
Proof. unfold JS.ge. apply Qle_bool_iff. Qed.

Lemma gt_true (x y : Q) : (x >? y) = true <-> y < x.
Proof.
  unfold JS.gt. rewrite negb_true_iff. split.
  - apply Qle_bool_false.
  - intros H. destruct (Qle_bool x y) eqn:E; trivial.
    apply Qle_bool_iff in E. lra.
Qed.

Lemma le_true (x y : Q) : (x <=? y) = true <-> x <= y.
Proof. unfold JS.le. apply Qle_bool_iff. Qed.

(** A test that came out [false] refutes the proposition it decides. *)
Lemma false_refutes (t : bool) (P : Prop) :
  (t = true <-> P) -> t = false -> ~ P.
Proof. intros [_ H] E HP. rewrite (H HP) in E. discriminate. Qed.

(** ** The risk classifier *)

(** The tier [assessAnemiaRisk] reports is the one its branch selected. *)
Lemma assess_result random p h r g b :
  Assessment.result (assessAnemiaRisk random p h r g b)
  = Locals.result (assessBranch random p h r g b).
Proof. reflexivity. Qed.

Lemma assess_riskScore random p h r g b :
  Assessment.riskScore (assessAnemiaRisk random p h r g b)
  = JS.round (Locals.riskScore (assessBranch random p h r g b)).
Proof. reflexivity. Qed.

Lemma assess_focusAreas random p h r g b :
  Assessment.focusAreas (assessAnemiaRisk random p h r g b)
  = Locals.focusAreas (assessBranch random p h r g b).
Proof. reflexivity. Qed.

(** One condition of the cascade. *)
Lemma row_test (p h a c : Q) :
  (p <? a) && (h >=? c) = true <-> p < a /\ c <= h.
Proof. rewrite andb_true_iff, lt_true, ge_true. reflexivity. Qed.

(** The cascade: exactly one row applies and fixes tier, unrounded score
    and number of focus areas. *)
Lemma assessBranch_rows (random p h r g b : Q) :
  let l := assessBranch random p h r g b in
  (normalRow p h /\ rowOutcome l Normal (p * 50) 0)
  \/ (mildRow p h /\ rowOutcome l MildRisk (25 + p * 40) 4)
  \/ (highRow p h /\ rowOutcome l HighRisk (55 + p * 30) 6)
  \/ (severeRow p h /\ rowOutcome l SevereRisk (75 + p * 25) 8).
Proof.
  cbv zeta.
  unfold severeRow, highRow, mildRow, normalRow, rowOutcome, assessBranch.
  destruct ((p <? 0.2) && (h >=? 12.0)) eqn:E1;
    [apply row_test in E1 | apply (false_refutes _ _ (row_test _ _ _ _)) in E1].
  { left. repeat split; apply E1. }
  destruct ((p <? 0.4) && (h >=? 10.0)) eqn:E2;
    [apply row_test in E2 | apply (false_refutes _ _ (row_test _ _ _ _)) in E2].
  { right; left. repeat split; try apply E2. exact E1. }
  destruct ((p <? 0.6) && (h >=? 8.0)) eqn:E3;
    [apply row_test in E3 | apply (false_refutes _ _ (row_test _ _ _ _)) in E3].
  { right; right; left. repeat split; try apply E3; assumption. }
  right; right; right. repeat split; assumption.
Qed.

(** C1. For every pallorIndex and hemoglobinEstimate exactly one row of
    the cascade applies, tested in order with the first match winning:
    Normal when pallorIndex < 0.2 and hemoglobinEstimate >= 12.0, else Mild
    Risk when pallorIndex < 0.4 and hemoglobinEstimate >= 10.0, else High
    Risk when pallorIndex < 0.6 and hemoglobinEstimate >= 8.0, else Severe
    Risk.  The unrounded riskScore of the selected tier is pallorIndex*50,
    25+pallorIndex*40, 55+pallorIndex*30, 75+pallorIndex*25, and its
    focusAreas list has 0, 4, 6, 8 items.  The returned object carries that
    tier and list, and the score rounded to an integer. *)
Theorem assessAnemiaRisk_cascade (random p h r g b : Q) :
  let l := assessBranch random p h r g b in
  let a := assessAnemiaRisk random p h r g b in
  ( (normalRow p h /\ rowOutcome l Normal (p * 50) 0)
    \/ (mildRow p h /\ rowOutcome l MildRisk (25 + p * 40) 4)
    \/ (highRow p h /\ rowOutcome l HighRisk (55 + p * 30) 6)
    \/ (severeRow p h /\ rowOutcome l SevereRisk (75 + p * 25) 8) )
  /\ Assessment.result a = Locals.result l
  /\ Assessment.riskScore a = JS.round (Locals.riskScore l)
  /\ Assessment.focusAreas a = Locals.focusAreas l.
Proof.
  cbv zeta. split; [apply assessBranch_rows | repeat split].
Qed.


(** ** Arithmetic helpers *)

(** Folds [/ c] for a literal [c], so that linear arithmetic sees a
    constant factor. *)
Ltac q_consts :=
  unfold Qdiv in *;
  repeat match goal with
  | |- context [Qinv (Qmake ?n ?d)] =>
      let c := eval vm_compute in (Qinv (Qmake n d)) in
      change (Qinv (Qmake n d)) with c
  | H : context [Qinv (Qmake ?n ?d)] |- _ =>
      let c := eval vm_compute in (Qinv (Qmake n d)) in
      change (Qinv (Qmake n d)) with c in H
  end.

Lemma Qabs_spec (x : Q) :
  (0 <= x /\ Qabs x == x) \/ (x <= 0 /\ Qabs x == - x).
Proof.
  apply Qabs_case; intros H; [left | right]; split; trivial; reflexivity.
Qed.

(** Replaces each [Qmax], [Qmin] and [Qabs] in sight by a variable
    together with its defining case split. *)
Ltac q_name spec t :=
  let m := fresh "m" in
  let Hs := fresh "Hs" in
  pose proof spec as Hs; set (m := t) in *; clearbody m;
  destruct Hs as [[? ?] | [? ?]].

Ltac q_piecewise :=
  repeat match goal with
  | |- context [Qmax ?a ?b] => q_name (Q.max_spec a b) (Qmax a b)
  | |- context [Qmin ?a ?b] => q_name (Q.min_spec a b) (Qmin a b)
  | |- context [Qabs ?a] => q_name (Qabs_spec a) (Qabs a)
  | H : context [Qmax ?a ?b] |- _ => q_name (Q.max_spec a b) (Qmax a b)
  | H : context [Qmin ?a ?b] |- _ => q_name (Q.min_spec a b) (Qmin a b)
  | H : context [Qabs ?a] |- _ => q_name (Qabs_spec a) (Qabs a)
  end.

(** ** estimateHemoglobin *)





(** Counterexample to C3 as worded, which has avgR = 0 with
    pallorIndex = 1 clamp the estimate to 4.0: the estimate there is 8.0. *)
Lemma estimateHemoglobin_floor_example_fails :
  ~ (estimateHemoglobin 0 0 0 1 == 4.0).
Proof. vm_compute. discriminate. Qed.


(** ** calculatePallorIndex *)

Lemma redDeficiency_range (r : Q) :
  validAverage r -> 0 <= redDeficiency r <= 1.
Proof.
  unfold validAverage, redDeficiency. intros Hr.
  q_consts. q_piecewise; lra.
Qed.

Lemma overallPaleness_range (brightness : Q) :
  validAverage brightness -> 0 <= overallPaleness brightness <= 1.
Proof.
  unfold validAverage, overallPaleness. intros Hb.
  q_consts. q_piecewise; lra.
Qed.

Lemma colorBalance_range (r g : Q) :
  validAverage r -> validAverage g -> 0 <= colorBalance r g <= 1.
Proof.
  unfold validAverage, colorBalance. intros Hr Hg.
  q_consts. q_piecewise; lra.
Qed.

Lemma calculatePallorIndex_range (r g b brightness : Q) :
  validAverage r -> validAverage g -> validAverage brightness ->
  0 <= calculatePallorIndex r g b brightness <= 1.
Proof.
  intros Hr Hg Hb. unfold calculatePallorIndex. cbv zeta.
  pose proof (redDeficiency_range r Hr).
  pose proof (overallPaleness_range brightness Hb).
  pose proof (colorBalance_range r g Hr Hg).
  lra.
Qed.

(** The unrounded score of whichever branch is selected, from the bounds
    of the pallor index alone. *)
Lemma branch_riskScore_range (random p h r g b : Q) :
  0 <= p <= 1 ->
  0 <= Locals.riskScore (assessBranch random p h r g b) <= 100.
Proof.
  intros Hp.
  destruct (assessBranch_rows random p h r g b)
    as [[_ (_ & -> & _)] | [[_ (_ & -> & _)] | [[_ (_ & -> & _)]
       | [_ (_ & -> & _)]]]]; lra.
Qed.

(** C9. For every avgR, avgG and avgBrightness in [0, 255] the pallor
    index lies in [0, 1]: each of its three weighted terms is non-negative
    (and at most its weight, the weights 0.5, 0.3, 0.2 adding up to 1).
    Consequently the unrounded riskScore of the branch the classifier
    takes lies in [0, 100], whatever the hemoglobin estimate. *)
Theorem pallorIndex_and_riskScore_bounded (r g b brightness : Q) :
  validAverage r -> validAverage g -> validAverage brightness ->
  let p := calculatePallorIndex r g b brightness in
  0 <= p <= 1
  /\ 0 <= redDeficiency r * 0.5 <= 0.5
  /\ 0 <= overallPaleness brightness * 0.3 <= 0.3
  /\ 0 <= (1 - colorBalance r g) * 0.2 <= 0.2
  /\ 0.5 + 0.3 + 0.2 == 1
  /\ forall random h r' g' b' : Q,
       0 <= Locals.riskScore (assessBranch random p h r' g' b') <= 100.
Proof.
  intros Hr Hg Hb p.
  pose proof (redDeficiency_range r Hr).
  pose proof (overallPaleness_range brightness Hb).
  pose proof (colorBalance_range r g Hr Hg).
  pose proof (calculatePallorIndex_range r g b brightness Hr Hg Hb) as Hp.
  fold p in Hp.
  repeat split; try lra.
  all: intros; apply branch_riskScore_range; exact Hp.
Qed.

Lemma pallorIndex_and_riskScore_bounded_witness :
  validAverage 220 /\ validAverage 170 /\ validAverage (530 / 3)
  /\ 0 <= calculatePallorIndex 220 170 140 (530 / 3) <= 1.
Proof.
  assert (H1 : validAverage 220) by (unfold validAverage; lra).
  assert (H2 : validAverage 170) by (unfold validAverage; lra).
  assert (H3 : validAverage (530 / 3)) by (unfold validAverage; q_consts; lra).
  split; [exact H1 |]. split; [exact H2 |]. split; [exact H3 |].
  exact (proj1 (pallorIndex_and_riskScore_bounded
                  220 170 140 (530 / 3) H1 H2 H3)).
Defined.

(** ** Ordering of the tiers *)

(** C6. For a fixed hemoglobinEstimate and pallor indices p1 <= p2, the
    tier assigned at p2 is at least as severe as the tier assigned at p1 in
    the ordering Normal < Mild Risk < High Risk < Severe Risk. *)
Theorem tier_monotone_in_pallorIndex
    (h p1 p2 random1 random2 r1 g1 b1 r2 g2 b2 : Q) :
  p1 <= p2 ->
  (severity (Assessment.result (assessAnemiaRisk random1 p1 h r1 g1 b1))
   <= severity (Assessment.result (assessAnemiaRisk random2 p2 h r2 g2 b2)))%nat.
Proof.
  intros Hp. rewrite !assess_result.
  destruct (assessBranch_rows random1 p1 h r1 g1 b1)
    as [[R1 (-> & _)] | [[R1 (-> & _)] | [[R1 (-> & _)] | [R1 (-> & _)]]]];
  destruct (assessBranch_rows random2 p2 h r2 g2 b2)
    as [[R2 (-> & _)] | [[R2 (-> & _)] | [[R2 (-> & _)] | [R2 (-> & _)]]]];
  cbn [severity]; try lia; exfalso;
  unfold severeRow, highRow, mildRow, normalRow in R1, R2; lra.
Qed.

Lemma tier_monotone_in_pallorIndex_witness :
  0.1 <= 0.5
  /\ (severity (Assessment.result (assessAnemiaRisk 0 0.1 12.0 200 150 120))
      <= severity (Assessment.result (assessAnemiaRisk 0.5 0.5 12.0 200 150 120)))%nat.
Proof.
  split; [lra |].
  apply (tier_monotone_in_pallorIndex 12.0 0.1 0.5 0 0.5 200 150 120 200 150 120).
  lra.
Defined.

(** ** Ordering of the risk scores *)

(** Scores of two tiers, for pallor indices that are not negative. *)
Lemma riskScore_ordered (random1 p1 h1 r1 g1 b1 random2 p2 h2 r2 g2 b2 : Q) :
  let l1 := assessBranch random1 p1 h1 r1 g1 b1 in
  let l2 := assessBranch random2 p2 h2 r2 g2 b2 in
  0 <= p1 -> 0 <= p2 ->
  (severity (Locals.result l1) < severity (Locals.result l2))%nat ->
  Locals.riskScore l1 < Locals.riskScore l2.
Proof.
  cbv zeta. intros H1 H2.
  destruct (assessBranch_rows random1 p1 h1 r1 g1 b1)
    as [[R1 (-> & -> & _)] | [[R1 (-> & -> & _)] | [[R1 (-> & -> & _)]
       | [R1 (-> & -> & _)]]]];
  destruct (assessBranch_rows random2 p2 h2 r2 g2 b2)
    as [[R2 (-> & -> & _)] | [[R2 (-> & -> & _)] | [[R2 (-> & -> & _)]
       | [R2 (-> & -> & _)]]]];
  cbn [severity]; intros Hs; try lia;
  unfold severeRow, highRow, mildRow, normalRow in R1, R2; lra.
Qed.

(** Without the lower bound the order breaks: a negative pallor index with
    hemoglobin 11 is Mild Risk with a score below a Normal one. *)
Example riskScore_order_needs_nonnegative_pallor :
  let l1 := assessBranch 0 0.1 12.0 0 0 0 in
  let l2 := assessBranch 0 (-10) 11.0 0 0 0 in
  Locals.result l1 = Normal /\ Locals.result l2 = MildRisk
  /\ Locals.riskScore l2 < Locals.riskScore l1.
Proof. vm_compute. repeat split. Qed.

Lemma round_monotone (x y : Q) : x <= y -> (JS.round x <= JS.round y)%Z.
Proof. intros H. unfold JS.round. apply Qfloor_resp_le. lra. Qed.

(** C7. The riskScore ranges of the four tiers are ordered like the
    tiers: every score achievable in a more severe tier is at least as
    large as every score achievable in a less severe tier, before and after
    rounding.  At the boundary pallorIndex = 0.2, hemoglobinEstimate = 12.0
    the tier is Mild Risk with score 25 + 0.2*40 = 33, above every Normal
    score, all of which stay below 0.2*50 = 10. *)
Theorem riskScore_ranges_ordered :
  (forall (t1 t2 : RiskTier) (s1 s2 : Q),
      achievable t1 s1 -> achievable t2 s2 ->
      (severity t1 < severity t2)%nat ->
      s1 <= s2 /\ (JS.round s1 <= JS.round s2)%Z)
  /\ (forall random r g b : Q,
        let l := assessBranch random 0.2 12.0 r g b in
        Locals.result l = MildRisk /\ Locals.riskScore l == 33)
  /\ (forall s : Q, achievable Normal s -> s < 0.2 * 50 /\ s < 33).
Proof.
  split; [| split].
  - intros t1 t2 s1 s2
      (random1 & r1 & g1 & b1 & br1 & h1 & Hr1 & Hg1 & Hb1 & <- & <-)
      (random2 & r2 & g2 & b2 & br2 & h2 & Hr2 & Hg2 & Hb2 & <- & <-) Hs.
    pose proof (calculatePallorIndex_range r1 g1 b1 br1 Hr1 Hg1 Hb1) as [P1 _].
    pose proof (calculatePallorIndex_range r2 g2 b2 br2 Hr2 Hg2 Hb2) as [P2 _].
    pose proof (riskScore_ordered _ _ h1 r1 g1 b1 _ _ h2 r2 g2 b2 P1 P2 Hs)
      as Hlt.
    split; [| apply round_monotone]; apply Qlt_le_weak; exact Hlt.
  - intros random r g b. vm_compute. split; reflexivity.
  - intros s (random & r & g & b & br & h & _ & _ & _ & Ht & <-).
    destruct (assessBranch_rows random (calculatePallorIndex r g b br) h r g b)
      as [[R (_ & -> & _)] | [[_ (E & _)] | [[_ (E & _)] | [_ (E & _)]]]];
      try (rewrite Ht in E; discriminate).
    unfold normalRow in R. lra.
Qed.

Lemma riskScore_ranges_ordered_witness :
  achievable Normal (calculatePallorIndex 255 0 0 255 * 50)
  /\ achievable SevereRisk (75 + calculatePallorIndex 0 0 0 0 * 25)
  /\ calculatePallorIndex 255 0 0 255 * 50
     <= 75 + calculatePallorIndex 0 0 0 0 * 25.
Proof.
  assert (V0 : validAverage 0) by (unfold validAverage; lra).
  assert (V255 : validAverage 255) by (unfold validAverage; lra).
  assert (A1 : achievable Normal (calculatePallorIndex 255 0 0 255 * 50)).
  { exists 0, 255, 0, 0, 255, 14.0. repeat split; try apply V0; try apply V255. }
  assert (A2 : achievable SevereRisk (75 + calculatePallorIndex 0 0 0 0 * 25)).
  { exists 0, 0, 0, 0, 0, 4.0. repeat split; try apply V0; try apply V255. }
  split; [exact A1 | split; [exact A2 |]].
  apply (proj1 riskScore_ranges_ordered Normal SevereRisk _ _ A1 A2).
  cbn. lia.
Defined.

(** ** isSkinPixel *)

Lemma isSkinPixel_tests (r g b : Q) :
  isSkinPixel r g b =
  if skinHueRange r g b && skinSatRange r g b && skinValRange r g b
     && rgbSkinCheck r g b then 0.9
  else if rgbSkinCheck r g b then 0.7
  else if skinHueRange r g b && skinSatRange r g b then 0.5
  else 0.0.
Proof.
  unfold isSkinPixel, skinHueRange, skinSatRange, skinValRange.
  cbv zeta. reflexivity.
Qed.

(** *** The code's hue, saturation and value are those of the
    conversion *)

Lemma Qfloor_unique (k : Z) (y : Q) :
  inject_Z k <= y -> y < inject_Z (k + 1) -> Qfloor y = k.
Proof.
  intros Hlo Hhi.
  pose proof (Qfloor_le y) as H1. pose proof (Qlt_floor y) as H2.
  assert (A : inject_Z (Qfloor y) < inject_Z (k + 1)) by lra.
  assert (B : inject_Z k < inject_Z (Qfloor y + 1)) by lra.
  rewrite <- Zlt_Qlt in A, B. lia.
Qed.

Lemma trunc_zero (y : Q) : -1 < y -> y < 1 -> JS.trunc y = 0%Z.
Proof.
  intros Hlo Hhi. unfold JS.trunc.
  destruct (Qle_bool 0 y) eqn:E.
  - apply Qle_bool_iff in E.
    apply Qfloor_unique;
      [change (inject_Z 0) with 0 | change (inject_Z (0 + 1)) with 1]; lra.
  - apply Qle_bool_false in E. unfold Qceiling.
    rewrite (Qfloor_unique 0 (- y));
      [reflexivity | change (inject_Z 0) with 0
      | change (inject_Z (0 + 1)) with 1]; lra.
Qed.

Lemma trunc_one (y : Q) : 1 <= y -> y < 2 -> JS.trunc y = 1%Z.
Proof.
  intros Hlo Hhi. unfold JS.trunc.
  assert (E : Qle_bool 0 y = true) by (apply Qle_bool_iff; lra).
  rewrite E.
  apply Qfloor_unique;
    [change (inject_Z 1) with 1 | change (inject_Z (1 + 1)) with 2]; lra.
Qed.

Lemma rem6_small (q : Q) : -1 <= q <= 1 -> JS.rem q 6 == q.
Proof.
  intros Hq. unfold JS.rem.
  rewrite (trunc_zero (q / 6)) by (q_consts; lra).
  change (inject_Z 0) with 0. ring.
Qed.

Lemma rem360_wrap (h : Q) :
  0 <= h <= 5 -> JS.rem (h * 60 + 360) 360 == h * 60.
Proof.
  intros Hh. unfold JS.rem.
  rewrite (trunc_one ((h * 60 + 360) / 360)) by (q_consts; lra).
  change (inject_Z 1) with 1. ring.
Qed.

Lemma rem360_below (h : Q) :
  -1 <= h < 0 -> JS.rem (h * 60 + 360) 360 == h * 60 + 360.
Proof.
  intros Hh. unfold JS.rem.
  rewrite (trunc_zero ((h * 60 + 360) / 360)) by (q_consts; lra).
  change (inject_Z 0) with 0. ring.
Qed.

Lemma ratio_bounds (n d : Q) :
  0 < d -> - d <= n <= d -> -1 <= n / d <= 1.
Proof.
  intros Hd [Hlo Hhi]. split.
  - apply Qle_shift_div_l; [exact Hd | lra].
  - apply Qle_shift_div_r; [exact Hd | lra].
Qed.

Lemma ratio_sign (n d : Q) :
  0 < d -> (0 <= n -> 0 <= n / d) /\ (n < 0 -> n / d < 0).
Proof.
  intros Hd. split; intros Hn.
  - apply Qle_shift_div_l; [exact Hd | lra].
  - apply Qlt_shift_div_r; [exact Hd | lra].
Qed.

Lemma max3_min3_facts (r g b : Q) :
  let M := Qmax (Qmax r g) b in
  let m := Qmin (Qmin r g) b in
  m <= r <= M /\ m <= g <= M /\ m <= b <= M.
Proof. cbv zeta. q_piecewise; lra. Qed.

Lemma skinHue_is_hue (r g b : Q) : skinHue r g b == HSV.hue r g b.
Proof.
  unfold skinHue, HSV.hue, JS.max3, JS.min3, JS.neq, JS.eq. cbv zeta.
  destruct (max3_min3_facts r g b) as (Hr & Hg & Hb). cbv zeta in Hr, Hg, Hb.
  set (M := Qmax (Qmax r g) b) in *. set (m := Qmin (Qmin r g) b) in *.
  destruct (Qeq_bool (M - m) 0) eqn:Ed; cbn [negb].
  - vm_compute. reflexivity.
  - apply Qeq_bool_neq in Ed.
    assert (Hd : 0 < M - m).
    { destruct (Qlt_le_dec 0 (M - m)) as [H | H]; [exact H |].
      exfalso. apply Ed. lra. }
    destruct (Qeq_bool M r) eqn:Er.
    + pose proof (ratio_bounds (g - b) (M - m) Hd ltac:(lra)) as Hq.
      pose proof (rem6_small _ Hq) as E6.
      destruct (ratio_sign (g - b) (M - m) Hd) as [Hpos Hneg].
      destruct (Qle_bool b g) eqn:Ebg.
      * apply Qle_bool_iff in Ebg.
        rewrite rem360_wrap by (rewrite E6; split; [apply Hpos; lra | lra]).
        rewrite E6. ring.
      * apply Qle_bool_false in Ebg.
        rewrite rem360_below by (rewrite E6; split; [lra | apply Hneg; lra]).
        rewrite E6. field. lra.
    + destruct (Qeq_bool M g) eqn:Eg.
      * pose proof (ratio_bounds (b - r) (M - m) Hd ltac:(lra)) as Hq.
        rewrite rem360_wrap by lra. ring.
      * pose proof (ratio_bounds (r - g) (M - m) Hd ltac:(lra)) as Hq.
        rewrite rem360_wrap by lra. ring.
Qed.

Lemma skinSaturation_is_saturation (r g b : Q) :
  skinSaturation r g b == HSV.saturation r g b.
Proof.
  unfold skinSaturation, HSV.saturation, JS.max3, JS.min3, JS.eq. cbv zeta.
  destruct (Qeq_bool (Qmax (Qmax r g) b) 0) eqn:E; [reflexivity |].
  apply Qeq_bool_neq in E. field. exact E.
Qed.

Lemma skinValue_is_value (r g b : Q) : skinValue r g b == HSV.value r g b.
Proof. reflexivity. Qed.

Lemma skinHueRange_true (r g b : Q) :
  skinHueRange r g b = true <-> hueInSkinRange r g b.
Proof.
  unfold skinHueRange, hueInSkinRange. cbv zeta.
  rewrite orb_true_iff, !andb_true_iff, !ge_true, !le_true.
  rewrite (skinHue_is_hue r g b). tauto.
Qed.

Lemma skinSatRange_true (r g b : Q) :
  skinSatRange r g b = true <-> saturationInSkinRange r g b.
Proof.
  unfold skinSatRange, saturationInSkinRange. cbv zeta.
  rewrite andb_true_iff, ge_true, le_true.
  rewrite (skinSaturation_is_saturation r g b). tauto.
Qed.

Lemma skinValRange_true (r g b : Q) :
  skinValRange r g b = true <-> valueInSkinRange r g b.
Proof.
  unfold skinValRange, valueInSkinRange. cbv zeta.
  rewrite andb_true_iff, ge_true, le_true.
  rewrite (skinValue_is_value r g b). tauto.
Qed.

Lemma rgbSkinCheck_true (r g b : Q) :
  rgbSkinCheck r g b = true <-> rgbHeuristic r g b.
Proof.
  unfold rgbSkinCheck, rgbHeuristic.
  rewrite !andb_true_iff, !gt_true. tauto.
Qed.

(** The score exceeds the threshold of the loop exactly when the RGB
    heuristic holds. *)
Lemma skinLikelihood_above_threshold (r g b : Q) :
  (isSkinPixel r g b >? 0.6) = rgbSkinCheck r g b.
Proof.
  rewrite isSkinPixel_tests.
  destruct (rgbSkinCheck r g b), (skinHueRange r g b), (skinSatRange r g b),
    (skinValRange r g b); reflexivity.
Qed.

Lemma classifyPixel_rgb (r g b : Q) (acc : Accumulator) :
  classifyPixel r g b acc
  = if rgbSkinCheck r g b then accumulate r g b acc else acc.
Proof.
  unfold classifyPixel. cbv zeta.
  rewrite skinLikelihood_above_threshold. reflexivity.
Qed.

(** C4. For every RGB pixel, with its hue, saturation and value as the
    RGB-to-HSV conversion gives them, the skin-likelihood score is 0.9 when
    the HSV ranges (hue in [0,25] or [340,360], saturation in [0.15,0.68],
    value in [0.35,0.95]) and the RGB heuristic (R>95, G>40, B>20, max-min
    channel > 15, |R-G| > 15, R>G, R>B) both hold, 0.7 when the RGB heuristic
    holds and the HSV ranges do not all hold, 0.5 when the RGB heuristic
    fails and the hue and saturation ranges hold (the value is not looked
    at), and 0.0 otherwise.  The loop accumulates a pixel only when its
    score is strictly above 0.6, so a pixel scored 0.5 leaves the
    accumulator as it was. *)
Theorem isSkinPixel_scores :
  (forall r g b : Q,
      (hsvRanges r g b /\ rgbHeuristic r g b -> isSkinPixel r g b = 0.9)
      /\ (rgbHeuristic r g b /\ ~ hsvRanges r g b -> isSkinPixel r g b = 0.7)
      /\ (~ rgbHeuristic r g b /\ hueInSkinRange r g b
          /\ saturationInSkinRange r g b -> isSkinPixel r g b = 0.5)
      /\ (~ rgbHeuristic r g b
          /\ ~ (hueInSkinRange r g b /\ saturationInSkinRange r g b) ->
          isSkinPixel r g b = 0.0))
  /\ (forall (r g b : Q) (acc : Accumulator),
        (0.6 < isSkinPixel r g b ->
         classifyPixel r g b acc = accumulate r g b acc)
        /\ (isSkinPixel r g b <= 0.6 -> classifyPixel r g b acc = acc)
        /\ (isSkinPixel r g b = 0.5 -> classifyPixel r g b acc = acc))
  /\ (forall (pixels : list Z) (i : nat) (r g b : Z) (acc : Accumulator),
        nth_error pixels i = Some r ->
        nth_error pixels (i + 1) = Some g ->
        nth_error pixels (i + 2) = Some b ->
        let score := isSkinPixel (inject_Z r) (inject_Z g) (inject_Z b) in
        (score <= 0.6 -> samplePixel pixels i acc = acc)
        /\ (score = 0.5 -> samplePixel pixels i acc = acc)).
Proof.
  split; [| split].
  - intros r g b. rewrite isSkinPixel_tests. unfold hsvRanges.
    destruct (skinHueRange r g b) eqn:Eh;
      [apply skinHueRange_true in Eh
      | apply (false_refutes _ _ (skinHueRange_true r g b)) in Eh];
    (destruct (skinSatRange r g b) eqn:Es;
      [apply skinSatRange_true in Es
      | apply (false_refutes _ _ (skinSatRange_true r g b)) in Es]);
    (destruct (skinValRange r g b) eqn:Ev;
      [apply skinValRange_true in Ev
      | apply (false_refutes _ _ (skinValRange_true r g b)) in Ev]);
    (destruct (rgbSkinCheck r g b) eqn:Ec;
      [apply rgbSkinCheck_true in Ec
      | apply (false_refutes _ _ (rgbSkinCheck_true r g b)) in Ec]);
    cbn [andb]; repeat split; intros; trivial; tauto.
  - intros r g b acc. unfold classifyPixel. cbv zeta. repeat split.
    + intros H. apply gt_true in H. rewrite H. reflexivity.
    + intros H. unfold JS.gt. apply Qle_bool_iff in H. rewrite H. reflexivity.
    + intros ->. reflexivity.
  - intros pixels i r g b acc Hr Hg Hb score.
    assert (Hle : score <= 0.6 -> samplePixel pixels i acc = acc).
    { intros Hscore. unfold samplePixel. cbv zeta. rewrite Hr, Hg, Hb.
      unfold classifyPixel. cbv zeta. fold score. unfold JS.gt.
      apply Qle_bool_iff in Hscore. rewrite Hscore. cbn [negb].
      destruct (nth_error pixels (i + 3)) as [alpha |]; [| reflexivity].
      destruct (inject_Z alpha <? 128); reflexivity. }
    split; [exact Hle |].
    intros Hscore. apply Hle. rewrite Hscore. discriminate.
Qed.

(** Decides an order between two closed rationals by evaluation. *)
Ltac q_closed :=
  first [ apply Qle_bool_iff; vm_compute; reflexivity
        | apply gt_true; vm_compute; reflexivity ].

Lemma isSkinPixel_scores_witness :
  (HSV.hue 220 170 140 == 22.5
   /\ (hsvRanges 220 170 140 /\ rgbHeuristic 220 170 140)
   /\ isSkinPixel 220 170 140 = 0.9)
  /\ (HSV.hue 200 160 100 == 36
      /\ (rgbHeuristic 200 160 100 /\ ~ hsvRanges 200 160 100)
      /\ isSkinPixel 200 160 100 = 0.7)
  /\ ((~ rgbHeuristic 90 60 50 /\ hueInSkinRange 90 60 50
       /\ saturationInSkinRange 90 60 50)
      /\ isSkinPixel 90 60 50 = 0.5).
Proof.
  assert (H1 : hsvRanges 220 170 140 /\ rgbHeuristic 220 170 140).
  { split; [split; [| split] |].
    - left. split; q_closed.
    - split; q_closed.
    - split; q_closed.
    - unfold rgbHeuristic. repeat (split; [q_closed |]). q_closed. }
  assert (H2 : rgbHeuristic 200 160 100 /\ ~ hsvRanges 200 160 100).
  { split.
    - unfold rgbHeuristic. repeat (split; [q_closed |]). q_closed.
    - intros ([[_ H] | [H _]] & _);
        apply Qle_bool_iff in H; vm_compute in H; discriminate H. }
  assert (H3 : ~ rgbHeuristic 90 60 50 /\ hueInSkinRange 90 60 50
               /\ saturationInSkinRange 90 60 50).
  { split; [| split].
    - intros (H & _). apply gt_true in H. vm_compute in H. discriminate H.
    - left. split; q_closed.
    - split; q_closed. }
  split; [| split].
  - split; [vm_compute; reflexivity |]. split; [exact H1 |].
    destruct (proj1 isSkinPixel_scores 220 170 140) as (H & _).
    exact (H H1).
  - split; [vm_compute; reflexivity |]. split; [exact H2 |].
    destruct (proj1 isSkinPixel_scores 200 160 100) as (_ & H & _).
    exact (H H2).
  - split; [exact H3 |].
    destruct (proj1 isSkinPixel_scores 90 60 50) as (_ & _ & H & _).
    exact (H H3).
Defined.

(** ** The sampling loop *)

Lemma sampleOffsets_spec (len i : nat) :
  In i (sampleOffsets len) <-> (i < len /\ i mod 16 = 0)%nat.
Proof.
  unfold sampleOffsets. rewrite in_map_iff. split.
  - intros (k & <- & Hk). apply in_seq in Hk.
    assert (H : (len + 15 = 16 * ((len + 15) / 16) + (len + 15) mod 16)%nat)
      by apply Nat.div_mod_eq.
    assert (H' : ((len + 15) mod 16 < 16)%nat)
      by (apply Nat.mod_upper_bound; lia).
    split; [lia |].
    rewrite Nat.mul_comm. apply Nat.Div0.mod_mul.
  - intros (Hlt & Hmod). exists (i / 16)%nat.
    assert (H : (i = 16 * (i / 16) + i mod 16)%nat) by apply Nat.div_mod_eq.
    split; [lia |]. apply in_seq. split; [lia |].
    assert (H1 : (len + 15 = 16 * ((len + 15) / 16) + (len + 15) mod 16)%nat)
      by apply Nat.div_mod_eq.
    assert (H2 : ((len + 15) mod 16 < 16)%nat)
      by (apply Nat.mod_upper_bound; lia).
    lia.
Qed.

Lemma samplePixel_skipped (pixels : list Z) (i : nat) (acc : Accumulator) :
  skippedAt pixels i = true -> samplePixel pixels i acc = acc.
Proof.
  unfold skippedAt, samplePixel. cbv zeta.
  destruct (nth_error pixels (i + 3)) as [alpha |]; [| discriminate].
  intros ->. reflexivity.
Qed.

(** A property that every iteration preserves holds when the loop ends. *)
Lemma samplePixels_invariant (P : Accumulator -> Prop) (pixels : list Z) :
  P emptyAccumulator ->
  (forall i acc, In i (sampleOffsets (List.length pixels)) ->
                 P acc -> P (samplePixel pixels i acc)) ->
  P (samplePixels pixels).
Proof.
  unfold samplePixels.
  generalize (sampleOffsets (List.length pixels)) as offsets.
  generalize emptyAccumulator as acc.
  intros acc offsets. revert acc.
  induction offsets as [| i offsets IH]; intros acc Hacc Hstep.
  - exact Hacc.
  - cbn [fold_left]. apply IH.
    + apply Hstep; [left; reflexivity | exact Hacc].
    + intros j acc' Hj. apply Hstep. right. exact Hj.
Qed.

Lemma fullyTransparent_skipped (img : Raster) (i : nat) :
  fullyTransparent img ->
  In i (sampleOffsets (List.length (data img))) ->
  skippedAt (data img) i = true.
Proof.
  intros (Hlen & Halpha) Hi. apply sampleOffsets_spec in Hi.
  destruct Hi as (Hlt & Hmod).
  assert (H : (i = 16 * (i / 16) + i mod 16)%nat) by apply Nat.div_mod_eq.
  unfold skippedAt.
  replace (i + 3)%nat with (4 * (4 * (i / 16)) + 3)%nat by lia.
  rewrite Halpha by lia. reflexivity.
Qed.

Lemma fullyTransparent_no_skin (img : Raster) :
  fullyTransparent img -> samplePixels (data img) = emptyAccumulator.
Proof.
  intros Ht. apply samplePixels_invariant; [reflexivity |].
  intros i acc Hi ->. apply samplePixel_skipped.
  apply fullyTransparent_skipped; assumption.
Qed.

(** ** The fallback record *)

(** C2. When analysis cannot run, because the image fails to load, the
    canvas drawing context is unavailable, or the sampling pass counts zero
    skin pixels, analyzeAnemiaFromImage resolves with the fixed fallback
    record: tier Mild Risk, confidence 85.0, riskScore 25, every colour
    metric zero, three recommendations and one finding.  In particular a
    fully transparent raster has skinPixelCount = 0 and yields that
    record. *)
Theorem fallback_when_analysis_cannot_run
    (env : Browser) (random : Q) (now : Z) :
  analyzeAnemiaFromImage env random now LoadError = getDefaultResult now
  /\ (forall img : Raster,
        canvasContext env = false ->
        analyzeAnemiaFromImage env random now (Loaded img)
        = getDefaultResult now)
  /\ (forall img : Raster,
        skinPixelCount (samplePixels (data img)) == 0 ->
        analyzeAnemiaFromImage env random now (Loaded img)
        = getDefaultResult now)
  /\ (forall img : Raster,
        fullyTransparent img ->
        skinPixelCount (samplePixels (data img)) = 0
        /\ analyzeAnemiaFromImage env random now (Loaded img)
           = getDefaultResult now)
  /\ result (getDefaultResult now) = MildRisk
  /\ confidence (getDefaultResult now) = 85.0
  /\ riskScore (getDefaultResult now) = 25%Z
  /\ colorAnalysis (getDefaultResult now) = mkColorAnalysis 0 0 0 0 0 0
  /\ List.length (recommendations (getDefaultResult now)) = 3%nat
  /\ List.length (detailedFindings (getDefaultResult now)) = 1%nat.
Proof.
  split; [reflexivity |].
  split.
  { intros img Hctx. unfold analyzeAnemiaFromImage. rewrite Hctx. reflexivity. }
  split.
  { intros img Hcount. unfold analyzeAnemiaFromImage. cbv zeta.
    destruct (negb (canvasContext env)); [reflexivity |].
    unfold JS.eq. rewrite (Qeq_eq_bool _ _ Hcount). reflexivity. }
  split.
  { intros img Ht. unfold analyzeAnemiaFromImage. cbv zeta.
    rewrite (fullyTransparent_no_skin img Ht).
    split; [reflexivity |].
    destruct (negb (canvasContext env)); reflexivity. }
  repeat split.
Qed.

Lemma fallback_when_analysis_cannot_run_witness :
  let img := mkRaster 1 2 [10; 20; 30; 0; 200; 150; 120; 0]%Z in
  fullyTransparent img
  /\ analyzeAnemiaFromImage (mkBrowser true true) 0.5 0 (Loaded img)
     = getDefaultResult 0.
Proof.
  cbv zeta.
  assert (Ht : fullyTransparent
                 (mkRaster 1 2 [10; 20; 30; 0; 200; 150; 120; 0]%Z)).
  { split; [reflexivity |]. cbn. intros k Hk.
    destruct k as [| [| k]]; [reflexivity | reflexivity | lia]. }
  split; [exact Ht |].
  pose proof (fallback_when_analysis_cannot_run (mkBrowser true true) 0.5 0)
    as (_ & _ & _ & H & _).
  apply H. exact Ht.
Defined.

(** ** The heatmap renderer *)

Lemma paintFocusArea_size (canvas : Raster) (gradCtx : Canvas)
    (intensity : Q) (index : nat) :
  canvasWidth (paintFocusArea canvas gradCtx intensity index)
  = canvasWidth gradCtx
  /\ canvasHeight (paintFocusArea canvas gradCtx intensity index)
     = canvasHeight gradCtx.
Proof. split; reflexivity. Qed.

Lemma forEachFocusArea_size (canvas : Raster) (focusAreas : list Q) :
  forall (index : nat) (gradCtx : Canvas),
    canvasWidth (forEachFocusArea canvas focusAreas index gradCtx)
    = canvasWidth gradCtx
    /\ canvasHeight (forEachFocusArea canvas focusAreas index gradCtx)
       = canvasHeight gradCtx.
Proof.
  induction focusAreas as [| intensity rest IH]; intros index gradCtx.
  - split; reflexivity.
  - cbn [forEachFocusArea].
    destruct (IH (S index) (paintFocusArea canvas gradCtx intensity index))
      as [Hw Hh].
    rewrite Hw, Hh. apply paintFocusArea_size.
Qed.

(** Every focus area adds one filled rectangle on top of the base layer. *)
Lemma forEachFocusArea_painted (canvas : Raster) (focusAreas : list Q) :
  forall (index : nat) (gradCtx : Canvas),
    List.length (painted (forEachFocusArea canvas focusAreas index gradCtx))
    = (List.length (painted gradCtx) + List.length focusAreas)%nat.
Proof.
  induction focusAreas as [| intensity rest IH]; intros index gradCtx.
  - cbn. lia.
  - cbn [forEachFocusArea]. rewrite IH.
    unfold paintFocusArea, fillRect. cbn. rewrite length_app. cbn. lia.
Qed.

(** C10, as the code has it.  For every input raster and every non-empty
    focusAreas list, when the renderer obtains a 2D context for its canvas
    the raster it returns has the width and height of the input raster;
    when it obtains none it returns the empty string, which encodes no
    raster. *)
Theorem generateGradCAM_same_size
    (gradContext : bool) (canvas : Raster) (focusAreas : list Q) :
  focusAreas <> [] ->
  (gradContext = true ->
   rasterSize (generateGradCAM gradContext canvas focusAreas)
   = Some (width canvas, height canvas))
  /\ (gradContext = false ->
      generateGradCAM gradContext canvas focusAreas = EmptyString).
Proof.
  intros _. split; intros ->; [| reflexivity].
  unfold generateGradCAM, toDataURL, rasterSize. cbn [negb].
  match goal with
  | |- context [forEachFocusArea ?c ?f ?i ?ctx] =>
      destruct (forEachFocusArea_size c f i ctx) as [-> ->]
  end.
  reflexivity.
Qed.

Lemma generateGradCAM_same_size_witness :
  let canvas := mkRaster 1 1 [220; 170; 140; 255]%Z in
  [30; 40; 50; 60] <> []
  /\ rasterSize (generateGradCAM true canvas [30; 40; 50; 60])
     = Some (1%positive, 1%positive).
Proof.
  cbv zeta.
  assert (H : [30; 40; 50; 60] <> @nil Q) by discriminate.
  split; [exact H |].
  apply (generateGradCAM_same_size
           true (mkRaster 1 1 [220; 170; 140; 255]%Z) [30; 40; 50; 60] H).
  reflexivity.
Defined.

(** Counterexample to C10 as worded, which promises an output raster for
    every input: without a context there is none. *)
Lemma generateGradCAM_without_context :
  let canvas := mkRaster 1 1 [220; 170; 140; 255]%Z in
  [30; 40; 50; 60] <> @nil Q
  /\ rasterSize (generateGradCAM false canvas [30; 40; 50; 60])
     <> Some (width canvas, height canvas).
Proof. cbv zeta. split; discriminate. Qed.

(** ** Determinism *)

(** The branch draws on [random] for the confidence only. *)
Lemma assessBranch_random (random1 random2 p h r g b : Q) :
  let l1 := assessBranch random1 p h r g b in
  let l2 := assessBranch random2 p h r g b in
  Locals.result l1 = Locals.result l2
  /\ Locals.riskScore l1 = Locals.riskScore l2
  /\ Locals.explanation l1 = Locals.explanation l2
  /\ Locals.recommendations l1 = Locals.recommendations l2
  /\ Locals.detailedFindings l1 = Locals.detailedFindings l2
  /\ Locals.focusAreas l1 = Locals.focusAreas l2.
Proof.
  cbv zeta. unfold assessBranch.
  destruct ((p <? 0.2) && (h >=? 12.0));
    [| destruct ((p <? 0.4) && (h >=? 10.0));
       [| destruct ((p <? 0.6) && (h >=? 8.0))]];
    repeat split.
Qed.

Lemma analyzeSkin_deterministic (env : Browser) (random1 random2 : Q)
    (now1 now2 : Z) (canvas : Raster) (acc : Accumulator) :
  sameAnalysis (analyzeSkin env random1 now1 canvas acc)
               (analyzeSkin env random2 now2 canvas acc).
Proof.
  unfold sameAnalysis, analyzeSkin. cbv zeta. cbn.
  match goal with
  | |- context [assessBranch random1 ?p ?h ?r ?g ?b] =>
      destruct (assessBranch_random random1 random2 p h r g b)
        as (-> & -> & -> & -> & -> & ->)
  end.
  repeat split.
Qed.

Lemma analyzeSkin_verdict (env1 env2 : Browser) (random1 random2 : Q)
    (now1 now2 : Z) (canvas : Raster) (acc : Accumulator) :
  sameVerdict (analyzeSkin env1 random1 now1 canvas acc)
              (analyzeSkin env2 random2 now2 canvas acc).
Proof.
  unfold sameVerdict, analyzeSkin. cbv zeta. cbn.
  match goal with
  | |- context [assessBranch random1 ?p ?h ?r ?g ?b] =>
      destruct (assessBranch_random random1 random2 p h r g b)
        as (-> & -> & -> & -> & -> & _)
  end.
  repeat split.
Qed.

(** C8, as the code has it.  Two runs of the analysis on the identical
    raster in which the canvas context is obtained or refused alike yield
    identical tier, riskScore and colour metrics (average channels,
    brightness, pallor index, hemoglobin estimate), and identical
    explanation, recommendations and findings; when the context of the
    heatmap canvas is also obtained or refused alike, the heatmap is
    identical too.  Between such runs the confidence jitter and the creation
    timestamp are the only fields that can differ: the confidence does not
    depend on the clock and the timestamp is the clock reading of the
    run. *)
Theorem analysis_deterministic (env1 env2 : Browser) (imageData : ImageLoad)
    (random1 random2 : Q) (now1 now2 : Z) :
  let a1 := analyzeAnemiaFromImage env1 random1 now1 imageData in
  let a2 := analyzeAnemiaFromImage env2 random2 now2 imageData in
  (canvasContext env1 = canvasContext env2 -> sameVerdict a1 a2)
  /\ (canvasContext env1 = canvasContext env2 ->
      gradCanvasContext env1 = gradCanvasContext env2 ->
      sameAnalysis a1 a2)
  /\ confidence (analyzeAnemiaFromImage env1 random1 now2 imageData)
     = confidence a1
  /\ timestamp a1 = now1 /\ timestamp a2 = now2.
Proof.
  cbv zeta. split; [| split].
  - intros Hctx. unfold analyzeAnemiaFromImage. rewrite <- Hctx.
    destruct imageData as [| img]; [repeat split |].
    destruct (negb (canvasContext env1)); [repeat split |].
    cbv zeta.
    destruct (skinPixelCount (samplePixels (data img)) === 0);
      [repeat split | apply analyzeSkin_verdict].
  - intros Hctx Hgrad.
    destruct env1 as [c1 g1], env2 as [c2 g2]. cbn in Hctx, Hgrad. subst c2 g2.
    unfold analyzeAnemiaFromImage.
    destruct imageData as [| img]; [repeat split |].
    destruct (negb (canvasContext (mkBrowser c1 g1))); [repeat split |].
    cbv zeta.
    destruct (skinPixelCount (samplePixels (data img)) === 0);
      [repeat split | apply analyzeSkin_deterministic].
  - unfold analyzeAnemiaFromImage.
    destruct imageData as [| img]; [repeat split |].
    destruct (negb (canvasContext env1)), (negb (canvasContext env2));
      cbv zeta;
      destruct (skinPixelCount (samplePixels (data img)) === 0);
      repeat split.
Qed.

Lemma analysis_deterministic_witness :
  let imageData := Loaded (mkRaster 1 1 [250; 120; 100; 255]%Z) in
  canvasContext (mkBrowser true true) = canvasContext (mkBrowser true false)
  /\ sameVerdict
       (analyzeAnemiaFromImage (mkBrowser true true) 0 1000 imageData)
       (analyzeAnemiaFromImage (mkBrowser true false) 0.5 2000 imageData).
Proof.
  cbv zeta.
  assert (H : canvasContext (mkBrowser true true)
              = canvasContext (mkBrowser true false)) by reflexivity.
  split; [exact H |].
  exact (proj1 (analysis_deterministic
                  (mkBrowser true true) (mkBrowser true false)
                  (Loaded (mkRaster 1 1 [250; 120; 100; 255]%Z))
                  0 0.5 1000 2000) H).
Defined.

(** Counterexample to C8 as worded, which makes the confidence the only
    field that varies: two runs with the same random draw at different
    times differ in their timestamp. *)
Lemma timestamp_differs_between_runs :
  let imageData := Loaded (mkRaster 1 1 [220; 170; 140; 255]%Z) in
  let a1 := analyzeAnemiaFromImage (mkBrowser true true) 0.5 1000 imageData in
  let a2 := analyzeAnemiaFromImage (mkBrowser true true) 0.5 2000 imageData in
  confidence a1 = confidence a2 /\ timestamp a1 <> timestamp a2.
Proof. cbv zeta. split; [reflexivity | vm_compute; discriminate]. Qed.

(** Counterexample to C8 as worded, in full: the timestamp differs
    between two runs at different times, and a run in which the canvas
    context is refused returns the fallback record, with another tier and
    riskScore than the run that obtained it. *)
Lemma runs_differ_beyond_confidence :
  let imageData := Loaded (mkRaster 1 1 [250; 120; 100; 255]%Z) in
  let a1 := analyzeAnemiaFromImage (mkBrowser true true) 0.5 1000 imageData in
  let a2 := analyzeAnemiaFromImage (mkBrowser true true) 0.5 2000 imageData in
  let a3 := analyzeAnemiaFromImage (mkBrowser false true) 0.5 1000 imageData in
  (confidence a1 = confidence a2 /\ timestamp a1 <> timestamp a2)
  /\ (result a1 = Normal /\ result a3 = MildRisk
      /\ riskScore a1 <> riskScore a3).
Proof.
  cbv zeta. split; split.
  - reflexivity.
  - vm_compute. discriminate.
  - vm_compute. reflexivity.
  - split; vm_compute; [reflexivity | discriminate].
Qed.

(** The jitter is real: two draws give two confidences on the same
    raster. *)
Example confidence_differs_between_draws :
  let imageData := Loaded (mkRaster 1 1 [220; 170; 140; 255]%Z) in
  let a1 := analyzeAnemiaFromImage (mkBrowser true true) 0 1000 imageData in
  let a2 := analyzeAnemiaFromImage (mkBrowser true true) 0.5 1000 imageData in
  confidence a1 == 87 /\ confidence a2 == 91.
Proof. cbv zeta. split; vm_compute; reflexivity. Qed.

(** ** A raster of mid-tone skin *)

Lemma accumulate_skinTotals (n : nat) (acc : Accumulator) :
  skinTotals n acc -> skinTotals (S n) (accumulate 220 170 140 acc).
Proof.
  unfold skinTotals. cbv zeta. rewrite Nat2Z.inj_succ.
  unfold Z.succ. rewrite inject_Z_plus.
  intros (H1 & H2 & H3 & H4 & H5). cbn [accumulate totalR totalG totalB
    totalBrightness skinPixelCount].
  rewrite H1, H2, H3, H4, H5. q_consts.
  repeat split; change (inject_Z 1) with 1; ring.
Qed.

Section MidToneRaster.

Variable pixels : list Z.
Hypothesis every_sampled_opaque_pixel : midToneSkin pixels.

Lemma samplePixel_midTone (i : nat) (acc : Accumulator) :
  sampledOpaque pixels i ->
  samplePixel pixels i acc = accumulate 220 170 140 acc.
Proof.
  intros Hi. destruct (every_sampled_opaque_pixel i Hi) as (Hr & Hg & Hb).
  destruct Hi as [_ Hs]. unfold samplePixel, skippedAt in *. cbv zeta.
  rewrite Hr, Hg, Hb.
  assert (Hc : classifyPixel (inject_Z 220) (inject_Z 170) (inject_Z 140) acc
               = accumulate 220 170 140 acc)
    by (rewrite classifyPixel_rgb; reflexivity).
  destruct (nth_error pixels (i + 3)) as [alpha |]; [rewrite Hs |]; exact Hc.
Qed.

(** The loop over any part of its offsets: the count grows by the number
    of offsets that are not skipped. *)
Lemma sampling_midTone (offsets : list nat) :
  incl offsets (sampleOffsets (List.length pixels)) ->
  forall (n : nat) (acc : Accumulator),
    skinTotals n acc ->
    skinTotals (n + opaqueCount pixels offsets)
               (fold_left (fun acc i => samplePixel pixels i acc) offsets acc).
Proof.
  unfold opaqueCount.
  induction offsets as [| i offsets IH]; intros Hincl n acc Hacc.
  - cbn. rewrite Nat.add_0_r. exact Hacc.
  - cbn [fold_left filter].
    assert (Hrest : incl offsets (sampleOffsets (List.length pixels)))
      by (intros j Hj; apply Hincl; right; exact Hj).
    destruct (skippedAt pixels i) eqn:Hs; cbn [negb].
    + rewrite (samplePixel_skipped _ _ _ Hs). apply IH; assumption.
    + rewrite samplePixel_midTone
        by (split; [apply Hincl; left; reflexivity | exact Hs]).
      cbn [List.length]. rewrite <- Nat.add_succ_comm.
      apply IH; [exact Hrest |]. apply accumulate_skinTotals. exact Hacc.
Qed.

Lemma opaqueCount_positive (offsets : list nat) (i : nat) :
  In i offsets -> skippedAt pixels i = false ->
  (0 < opaqueCount pixels offsets)%nat.
Proof.
  intros Hi Hs. unfold opaqueCount.
  assert (Hin : In i (filter (fun i => negb (skippedAt pixels i)) offsets))
    by (apply filter_In; split; [exact Hi | rewrite Hs; reflexivity]).
  destruct (filter (fun i => negb (skippedAt pixels i)) offsets);
    [destruct Hin | cbn; lia].
Qed.

Lemma midToneSkin_totals :
  (exists i, sampledOpaque pixels i) ->
  exists n : nat, (0 < n)%nat /\ skinTotals n (samplePixels pixels).
Proof.
  intros (i & Hi & Hs).
  exists (opaqueCount pixels (sampleOffsets (List.length pixels))). split.
  - apply (opaqueCount_positive _ i Hi Hs).
  - apply sampling_midTone with (n := 0%nat).
    + apply incl_refl.
    + unfold skinTotals. cbn. repeat split; reflexivity.
Qed.

End MidToneRaster.

Lemma calculatePallorIndex_wd (r r' g g' b b' brightness brightness' : Q) :
  r == r' -> g == g' -> brightness == brightness' ->
  calculatePallorIndex r g b brightness
  == calculatePallorIndex r' g' b' brightness'.
Proof.
  intros Hr Hg Hb.
  unfold calculatePallorIndex, redDeficiency, overallPaleness, colorBalance.
  cbv zeta. rewrite Hr, Hg, Hb. reflexivity.
Qed.

Lemma estimateHemoglobin_wd (r r' g g' b b' p p' : Q) :
  r == r' -> p == p' ->
  estimateHemoglobin r g b p == estimateHemoglobin r' g' b' p'.
Proof.
  intros Hr Hp. unfold estimateHemoglobin. cbv zeta.
  rewrite Hr, Hp. reflexivity.
Qed.

Lemma analyzeSkin_result (env : Browser) (random : Q) (now : Z)
    (canvas : Raster) (acc : Accumulator) :
  result (analyzeSkin env random now canvas acc)
  = Locals.result
      (assessBranch random (pallorOf acc) (hemoglobinOf acc)
                    (averageR acc) (averageG acc) (averageB acc)).
Proof. reflexivity. Qed.

Lemma analyzeSkin_riskScore (env : Browser) (random : Q) (now : Z)
    (canvas : Raster) (acc : Accumulator) :
  riskScore (analyzeSkin env random now canvas acc)
  = JS.round
      (Locals.riskScore
         (assessBranch random (pallorOf acc) (hemoglobinOf acc)
                       (averageR acc) (averageG acc) (averageB acc))).
Proof. reflexivity. Qed.

Lemma skinTotals_metrics (n : nat) (acc : Accumulator) :
  (0 < n)%nat -> skinTotals n acc ->
  0 < skinPixelCount acc
  /\ pallorOf acc == 2467 # 11220
  /\ hemoglobinOf acc == 90499 # 5610.
Proof.
  intros Hn (H1 & H2 & H3 & H4 & H5).
  assert (Hq : 0 < inject_Z (Z.of_nat n)).
  { change 0 with (inject_Z 0). rewrite <- Zlt_Qlt. lia. }
  assert (HR : averageR acc == 220)
    by (unfold averageR; rewrite H1, H5; field; lra).
  assert (HG : averageG acc == 170)
    by (unfold averageG; rewrite H2, H5; field; lra).
  assert (HBr : averageBrightness acc == 530 / 3)
    by (unfold averageBrightness; rewrite H4, H5; field; lra).
  assert (HP : pallorOf acc == 2467 # 11220).
  { unfold pallorOf.
    rewrite (calculatePallorIndex_wd _ 220 _ 170 _ 140 _ (530 / 3) HR HG HBr).
    vm_compute. reflexivity. }
  split; [rewrite H5; exact Hq |]. split; [exact HP |].
  unfold hemoglobinOf.
  rewrite (estimateHemoglobin_wd _ 220 _ 170 _ 140 _ (2467 # 11220) HR HP).
  vm_compute. reflexivity.
Qed.

(** C5, as the code has it.  For every raster in which every sampled
    opaque pixel is R=220, G=170, B=140 and at least one pixel is sampled
    opaque, the sampling pass yields skinPixelCount > 0; the pallor index is
    2467/11220 (about 0.2199, not below 0.2), the hemoglobin estimate is
    90499/5610 (about 16.13, at least 12.0), and the resulting tier is Mild
    Risk, reached through the classifier with riskScore 34 when the canvas
    context is available. *)
Theorem midToneSkin_is_mild_risk
    (env : Browser) (random : Q) (now : Z) (img : Raster) :
  midToneSkin (data img) ->
  (exists i : nat, sampledOpaque (data img) i) ->
  let acc := samplePixels (data img) in
  0 < skinPixelCount acc
  /\ pallorOf acc == 2467 # 11220
  /\ 0.2 <= pallorOf acc
  /\ 12.0 <= hemoglobinOf acc
  /\ result (analyzeAnemiaFromImage env random now (Loaded img)) = MildRisk
  /\ (canvasContext env = true ->
      riskScore (analyzeAnemiaFromImage env random now (Loaded img)) = 34%Z).
Proof.
  intros Hmid Hex acc.
  destruct (midToneSkin_totals (data img) Hmid Hex) as (n & Hn & Htot).
  unfold analyzeAnemiaFromImage. cbv zeta.
  fold acc. fold acc in Htot. clearbody acc.
  destruct (skinTotals_metrics n acc Hn Htot) as (Hc & Hp & Hh).
  assert (Hcount : (skinPixelCount acc === 0) = false).
  { destruct (skinPixelCount acc === 0) eqn:E; [| reflexivity].
    apply Qeq_bool_eq in E. lra. }
  assert (Hrow : rowOutcome
                   (assessBranch random (pallorOf acc) (hemoglobinOf acc)
                      (averageR acc) (averageG acc) (averageB acc))
                   MildRisk (25 + pallorOf acc * 40) 4).
  { destruct (assessBranch_rows random (pallorOf acc) (hemoglobinOf acc)
                (averageR acc) (averageG acc) (averageB acc))
      as [[R _] | [[_ Hrow] | [[R _] | [R _]]]];
      try exact Hrow; exfalso;
      unfold severeRow, highRow, mildRow, normalRow in R; lra. }
  destruct Hrow as (Htier & Hscore & _).
  split; [exact Hc |]. split; [exact Hp |].
  split; [lra |]. split; [lra |].
  rewrite Hcount.
  split.
  - destruct (negb (canvasContext env)); [reflexivity |].
    rewrite analyzeSkin_result. exact Htier.
  - intros ->. cbn [negb].
    rewrite analyzeSkin_riskScore, Hscore. unfold JS.round.
    rewrite (Qfloor_comp _ (25 + (2467 # 11220) * 40 + 0.5))
      by (rewrite Hp; reflexivity).
    reflexivity.
Qed.

Lemma midToneSkin_is_mild_risk_witness :
  let img := mkRaster 1 1 [220; 170; 140; 255]%Z in
  midToneSkin (data img)
  /\ (exists i : nat, sampledOpaque (data img) i)
  /\ result (analyzeAnemiaFromImage (mkBrowser true true) 0.5 0 (Loaded img))
     = MildRisk.
Proof.
  cbv zeta.
  assert (Hmid : midToneSkin [220; 170; 140; 255]%Z).
  { intros i (Hi & _). cbn in Hi. destruct Hi as [<- | []].
    repeat split. }
  assert (Hex : exists i : nat, sampledOpaque [220; 170; 140; 255]%Z i).
  { exists 0%nat. split; [left; reflexivity | reflexivity]. }
  split; [exact Hmid |]. split; [exact Hex |].
  destruct (midToneSkin_is_mild_risk
              (mkBrowser true true) 0.5 0
              (mkRaster 1 1 [220; 170; 140; 255]%Z) Hmid Hex)
    as (_ & _ & _ & _ & H & _).
  exact H.
Defined.

(** Counterexample to C5 as worded, which promises the tier Normal, and
    skin pixels whenever the condition on the sampled opaque pixels holds:
    a single opaque pixel of that colour is Mild Risk, and a fully
    transparent raster meets the condition with no skin pixel at all. *)
Lemma midToneSkin_not_normal :
  let opaque := mkRaster 1 1 [220; 170; 140; 255]%Z in
  let clear := mkRaster 1 1 [220; 170; 140; 0]%Z in
  (midToneSkin (data opaque)
   /\ result (analyzeAnemiaFromImage (mkBrowser true true) 0.5 0
                                     (Loaded opaque)) <> Normal
   /\ ~ calculatePallorIndex 220 170 140 (530 / 3) < 0.2)
  /\ (midToneSkin (data clear)
      /\ ~ 0 < skinPixelCount (samplePixels (data clear))).
Proof.
  cbv zeta. split; split.
  - intros i (Hi & _). cbn in Hi. destruct Hi as [<- | []]. repeat split.
  - split; [vm_compute; discriminate |]. vm_compute. discriminate.
  - intros i (Hi & Hs). cbn in Hi. destruct Hi as [<- | []].
    vm_compute in Hs. discriminate Hs.
  - vm_compute. discriminate.
Qed.

(** ** The averages the pipeline computes are valid *)

Lemma accumulate_bounded (r g b : Q) (acc : Accumulator) :
  0 <= r <= 255 -> 0 <= g <= 255 -> 0 <= b <= 255 ->
  totalsBounded acc -> totalsBounded (accumulate r g b acc).
Proof.
  unfold totalsBounded. cbv zeta. cbn [accumulate totalR totalG totalB
    totalBrightness skinPixelCount].
  intros Hr Hg Hb (Hn & H1 & H2 & H3 & H4). q_consts.
  repeat split; lra.
Qed.

Section ByteRaster.

Variable pixels : list Z.
Hypothesis pixels_are_bytes : byteRaster pixels.

Lemma byte_range (i : nat) (z : Z) :
  nth_error pixels i = Some z -> 0 <= inject_Z z <= 255.
Proof.
  intros Hi. apply nth_error_In in Hi.
  pose proof pixels_are_bytes as Hb.
  unfold byteRaster in Hb. rewrite Forall_forall in Hb.
  destruct (Hb z Hi) as [Hlo Hhi].
  split.
  - change 0 with (inject_Z 0). rewrite <- Zle_Qle. exact Hlo.
  - change 255 with (inject_Z 255). rewrite <- Zle_Qle. exact Hhi.
Qed.

Lemma samplePixel_bounded (i : nat) (acc : Accumulator) :
  totalsBounded acc -> totalsBounded (samplePixel pixels i acc).
Proof.
  intros Hacc. unfold samplePixel. cbv zeta.
  assert (Hclass :
    totalsBounded
      match nth_error pixels i, nth_error pixels (i + 1),
            nth_error pixels (i + 2) with
      | Some r, Some g, Some b =>
          classifyPixel (inject_Z r) (inject_Z g) (inject_Z b) acc
      | _, _, _ => acc
      end).
  { destruct (nth_error pixels i) as [r |] eqn:Er; [| exact Hacc].
    destruct (nth_error pixels (i + 1)) as [g |] eqn:Eg; [| exact Hacc].
    destruct (nth_error pixels (i + 2)) as [b |] eqn:Eb; [| exact Hacc].
    rewrite classifyPixel_rgb.
    destruct (rgbSkinCheck (inject_Z r) (inject_Z g) (inject_Z b));
      [| exact Hacc].
    apply accumulate_bounded; trivial; eapply byte_range; eassumption. }
  destruct (nth_error pixels (i + 3)) as [alpha |]; [| exact Hclass].
  destruct (inject_Z alpha <? 128); [exact Hacc | exact Hclass].
Qed.

Lemma samplePixels_bounded : totalsBounded (samplePixels pixels).
Proof.
  apply samplePixels_invariant.
  - unfold totalsBounded. cbn. repeat split; lra.
  - intros i acc _. apply samplePixel_bounded.
Qed.

End ByteRaster.

Lemma average_valid (total n : Q) :
  0 < n -> 0 <= total <= 255 * n -> validAverage (total / n).
Proof.
  intros Hn [Hlo Hhi]. split.
  - apply Qle_shift_div_l; [exact Hn | lra].
  - apply Qle_shift_div_r; [exact Hn | exact Hhi].
Qed.

(** On a byte raster with at least one skin pixel the averages are in
    [0, 255], so the pallor index is in [0, 1] and the reported riskScore
    is an integer in [0, 100]. *)
Lemma pipeline_metrics_bounded (env : Browser) (random : Q) (now : Z)
    (img : Raster) :
  byteRaster (data img) ->
  let acc := samplePixels (data img) in
  (skinPixelCount acc === 0) = false ->
  validAverage (averageR acc) /\ validAverage (averageG acc)
  /\ validAverage (averageBrightness acc)
  /\ 0 <= pallorOf acc <= 1
  /\ (0 <= riskScore (analyzeSkin env random now img acc) <= 100)%Z.
Proof.
  intros Hbytes acc Hcount.
  destruct (samplePixels_bounded (data img) Hbytes)
    as (Hn & H1 & H2 & H3 & H4).
  fold acc in Hn, H1, H2, H3, H4. clearbody acc.
  assert (Hpos : 0 < skinPixelCount acc).
  { apply Qeq_bool_neq in Hcount.
    destruct (Qlt_le_dec 0 (skinPixelCount acc)) as [Hlt | Hle]; trivial.
    exfalso. apply Hcount. lra. }
  assert (VR : validAverage (averageR acc)) by (apply average_valid; trivial).
  assert (VG : validAverage (averageG acc)) by (apply average_valid; trivial).
  assert (VBr : validAverage (averageBrightness acc))
    by (apply average_valid; trivial).
  assert (HP : 0 <= pallorOf acc <= 1)
    by (unfold pallorOf; apply calculatePallorIndex_range; assumption).
  split; [exact VR |]. split; [exact VG |]. split; [exact VBr |].
  split; [exact HP |].
  assert (HS : 0 <= Locals.riskScore
                      (assessBranch random (pallorOf acc) (hemoglobinOf acc)
                         (averageR acc) (averageG acc) (averageB acc)) <= 100)
    by (apply branch_riskScore_range; exact HP).
  destruct HS as [Hlo Hhi].
  apply round_monotone in Hlo. apply round_monotone in Hhi.
  rewrite analyzeSkin_riskScore.
  replace (JS.round 0) with 0%Z in Hlo by reflexivity.
  replace (JS.round 100) with 100%Z in Hhi by reflexivity.
  split; [exact Hlo | exact Hhi].
Qed.

(** ** What the sampling loop reads *)

Lemma fold_left_ext_in {A B : Type} (f g : A -> B -> A) (l : list B) :
  (forall a b, In b l -> f a b = g a b) ->
  forall a, fold_left f l a = fold_left g l a.
Proof.
  induction l as [| b l IH]; intros H a.
  - reflexivity.
  - cbn [fold_left]. rewrite (H a b) by (left; reflexivity).
    apply IH. intros a' b' Hb'. apply H. right. exact Hb'.
Qed.

Lemma samplePixel_agree (p1 p2 : list Z) (i : nat) (acc : Accumulator) :
  (forall k, (k < 4)%nat -> nth_error p1 (i + k) = nth_error p2 (i + k)) ->
  samplePixel p1 i acc = samplePixel p2 i acc.
Proof.
  intros H. unfold samplePixel. cbv zeta.
  pose proof (H 0%nat ltac:(lia)) as H0. rewrite Nat.add_0_r in H0.
  rewrite H0, (H 1%nat), (H 2%nat), (H 3%nat) by lia. reflexivity.
Qed.

(** X1. The loop steps by 16 bytes, so it reads one pixel in four: two
    byte arrays of the same length that agree on the four bytes at every
    offset divisible by 16 give the same totals, whatever the other three
    quarters of the pixels hold. *)
Theorem samplePixels_reads_every_fourth_pixel (p1 p2 : list Z) :
  List.length p1 = List.length p2 ->
  (forall i k, (i mod 16 = 0)%nat -> (k < 4)%nat ->
               nth_error p1 (i + k) = nth_error p2 (i + k)) ->
  samplePixels p1 = samplePixels p2.
Proof.
  intros Hlen H. unfold samplePixels. rewrite Hlen.
  apply fold_left_ext_in. intros acc i Hi.
  apply sampleOffsets_spec in Hi. destruct Hi as [_ Hmod].
  apply samplePixel_agree. intros k Hk. apply H; assumption.
Qed.

Lemma samplePixels_reads_every_fourth_pixel_witness :
  samplePixels [250; 120; 100; 255; 10; 20; 30; 255]%Z
  = samplePixels [250; 120; 100; 255; 220; 170; 140; 255]%Z.
Proof.
  apply samplePixels_reads_every_fourth_pixel; [reflexivity |].
  intros i k Hi Hk.
  destruct i as [| i].
  - destruct k as [| [| [| [| k]]]]; try reflexivity; lia.
  - assert (Hge : (16 <= S i)%nat).
    { destruct (Nat.lt_ge_cases (S i) 16) as [Hlt | Hge]; [| exact Hge].
      rewrite Nat.mod_small in Hi by exact Hlt. discriminate. }
    transitivity (@None Z); [| symmetry];
      apply nth_error_None; cbn [List.length]; lia.
Defined.

Lemma samplePixel_cases (pixels : list Z) (i : nat) (acc : Accumulator) :
  (countedAt pixels i = false /\ samplePixel pixels i acc = acc)
  \/ (countedAt pixels i = true
      /\ exists r g b : Z,
           rgbSkinCheck (inject_Z r) (inject_Z g) (inject_Z b) = true
           /\ samplePixel pixels i acc
              = accumulate (inject_Z r) (inject_Z g) (inject_Z b) acc).
Proof.
  unfold countedAt, samplePixel, skippedAt. cbv zeta.
  destruct (nth_error pixels i) as [r |];
    [| left; split; [apply andb_false_r |];
       destruct (nth_error pixels (i + 3)) as [a |];
       [destruct (inject_Z a <? 128) |]; reflexivity].
  destruct (nth_error pixels (i + 1)) as [g |];
    [| left; split; [apply andb_false_r |];
       destruct (nth_error pixels (i + 3)) as [a |];
       [destruct (inject_Z a <? 128) |]; reflexivity].
  destruct (nth_error pixels (i + 2)) as [b |];
    [| left; split; [apply andb_false_r |];
       destruct (nth_error pixels (i + 3)) as [a |];
       [destruct (inject_Z a <? 128) |]; reflexivity].
  rewrite classifyPixel_rgb.
  destruct (rgbSkinCheck (inject_Z r) (inject_Z g) (inject_Z b)) eqn:Hc.
  - destruct (nth_error pixels (i + 3)) as [a |];
      [destruct (inject_Z a <? 128);
       [left; split; reflexivity |] |];
      right; (split; [reflexivity |]); exists r, g, b; split; trivial.
  - left. split; [apply andb_false_r |].
    destruct (nth_error pixels (i + 3)) as [a |];
      [destruct (inject_Z a <? 128) |]; reflexivity.
Qed.

Lemma samplePixel_count (pixels : list Z) (i : nat) (acc : Accumulator) :
  skinPixelCount (samplePixel pixels i acc)
  = if countedAt pixels i then skinPixelCount acc + 1 else skinPixelCount acc.
Proof.
  destruct (samplePixel_cases pixels i acc)
    as [[-> ->] | [-> (r & g & b & _ & ->)]]; reflexivity.
Qed.

Lemma sampling_count (pixels : list Z) (offsets : list nat) :
  forall acc : Accumulator,
    skinPixelCount
      (fold_left (fun acc i => samplePixel pixels i acc) offsets acc)
    == skinPixelCount acc
       + inject_Z (Z.of_nat (List.length (filter (countedAt pixels) offsets))).
Proof.
  induction offsets as [| i offsets IH]; intros acc.
  - cbn. ring.
  - cbn [fold_left filter]. rewrite IH, samplePixel_count.
    destruct (countedAt pixels i).
    + cbn [List.length]. rewrite Nat2Z.inj_succ. unfold Z.succ.
      rewrite inject_Z_plus. change (inject_Z 1) with 1. ring.
    + reflexivity.
Qed.

Lemma filter_nil_iff {A : Type} (f : A -> bool) (l : list A) :
  filter f l = [] <-> forall x, In x l -> f x = false.
Proof.
  induction l as [| a l IH]; cbn.
  - split; [intros _ x [] | reflexivity].
  - destruct (f a) eqn:E.
    + split; [discriminate |].
      intros H. rewrite (H a (or_introl eq_refl)) in E. discriminate.
    + rewrite IH. split.
      * intros H x [<- | Hx]; [exact E | apply H; exact Hx].
      * intros H x Hx. apply H. right. exact Hx.
Qed.

(** X2. [skinPixelCount] after the loop is the number of sampled offsets
    whose pixel is opaque and passes the RGB check; that is at most one
    per 16 bytes; and the [skinPixelCount === 0] test that sends the run
    to the fallback record holds exactly when no sampled offset has such a
    pixel. *)
Theorem fallback_iff_no_pixel_counted (pixels : list Z) :
  let offsets := sampleOffsets (List.length pixels) in
  let counted := List.length (filter (countedAt pixels) offsets) in
  skinPixelCount (samplePixels pixels) == inject_Z (Z.of_nat counted)
  /\ (counted <= (List.length pixels + 15) / 16)%nat
  /\ ((skinPixelCount (samplePixels pixels) === 0) = true
      <-> forall i, In i offsets -> countedAt pixels i = false).
Proof.
  cbv zeta.
  assert (Hcount := sampling_count pixels (sampleOffsets (List.length pixels))
                      emptyAccumulator).
  fold (samplePixels pixels) in Hcount.
  cbn [emptyAccumulator skinPixelCount] in Hcount.
  rewrite Qplus_0_l in Hcount.
  split; [exact Hcount |]. split.
  - eapply Nat.le_trans; [apply filter_length_le |].
    unfold sampleOffsets. rewrite length_map, length_seq. apply Nat.le_refl.
  - rewrite <- filter_nil_iff. unfold JS.eq. rewrite Qeq_bool_iff, Hcount.
    destruct (filter (countedAt pixels) (sampleOffsets (List.length pixels)))
      as [| x l].
    + split; reflexivity.
    + split; [| discriminate]. intros H. exfalso.
      cbn [List.length] in H. rewrite Nat2Z.inj_succ in H.
      change 0 with (inject_Z 0) in H. apply -> inject_Z_injective in H. lia.
Qed.

(** ** The averages of skin pixels *)

Lemma rgbSkinCheck_bytes (r g b : Z) :
  rgbSkinCheck (inject_Z r) (inject_Z g) (inject_Z b) = true ->
  skinBytes r g b.
Proof.
  intros H. apply rgbSkinCheck_true in H.
  destruct H as (Hr & Hg & Hb & _ & Habs & Hrg & Hrb).
  change 95 with (inject_Z 95) in Hr. change 40 with (inject_Z 40) in Hg.
  change 20 with (inject_Z 20) in Hb.
  rewrite <- Zlt_Qlt in Hr, Hg, Hb, Hrg, Hrb.
  assert (H16 : 15 < inject_Z (r - g)).
  { unfold Z.sub. rewrite inject_Z_plus, inject_Z_opp.
    change (15 < inject_Z r - inject_Z g).
    destruct (Qabs_spec (inject_Z r - inject_Z g)) as [[_ E] | [Hneg _]].
    - rewrite <- E. exact Habs.
    - rewrite Zlt_Qlt in Hrg. lra. }
  change 15 with (inject_Z 15) in H16. rewrite <- Zlt_Qlt in H16.
  unfold skinBytes. lia.
Qed.

Lemma skinBytes_Q (r g b : Z) :
  skinBytes r g b ->
  96 <= inject_Z r /\ 41 <= inject_Z g /\ 21 <= inject_Z b
  /\ inject_Z g + 16 <= inject_Z r /\ inject_Z b + 1 <= inject_Z r.
Proof.
  intros (H1 & H2 & H3 & H4 & H5).
  change 96 with (inject_Z 96). change 41 with (inject_Z 41).
  change 21 with (inject_Z 21). change 16 with (inject_Z 16).
  change 1 with (inject_Z 1).
  rewrite <- !inject_Z_plus, <- !Zle_Qle. repeat split; assumption.
Qed.

Lemma accumulate_skinDominated (r g b : Z) (acc : Accumulator) :
  skinBytes r g b -> skinDominated acc ->
  skinDominated (accumulate (inject_Z r) (inject_Z g) (inject_Z b) acc).
Proof.
  intros Hb (H0 & H1 & H2 & H3 & H4 & H5).
  apply skinBytes_Q in Hb. destruct Hb as (B1 & B2 & B3 & B4 & B5).
  unfold skinDominated. cbv zeta.
  cbn [accumulate totalR totalG totalB totalBrightness skinPixelCount].
  repeat split; lra.
Qed.

Lemma samplePixels_skinDominated (pixels : list Z) :
  skinDominated (samplePixels pixels).
Proof.
  apply samplePixels_invariant.
  - unfold skinDominated. cbn. repeat split; lra.
  - intros i acc _ Hacc.
    destruct (samplePixel_cases pixels i acc)
      as [[_ ->] | [_ (r & g & b & Hc & ->)]]; [exact Hacc |].
    apply accumulate_skinDominated; [| exact Hacc].
    apply rgbSkinCheck_bytes. exact Hc.
Qed.

Lemma count_positive (acc : Accumulator) :
  0 <= skinPixelCount acc -> (skinPixelCount acc === 0) = false ->
  0 < skinPixelCount acc.
Proof.
  intros Hn Hcount. apply Qeq_bool_neq in Hcount.
  destruct (Qlt_le_dec 0 (skinPixelCount acc)) as [Hlt | Hle]; trivial.
  exfalso. apply Hcount. lra.
Qed.

Lemma average_lower (total n c : Q) :
  0 < n -> c * n <= total -> c <= total / n.
Proof. intros Hn H. apply Qle_shift_div_l; assumption. Qed.

Lemma skin_average_red (pixels : list Z) :
  let acc := samplePixels pixels in
  (skinPixelCount acc === 0) = false -> 96 <= averageR acc.
Proof.
  intros acc Hcount.
  destruct (samplePixels_skinDominated pixels) as (H0 & H1 & _).
  fold acc in H0, H1. clearbody acc.
  apply average_lower; [apply count_positive |]; assumption.
Qed.



(** ** The tier, the score and the confidence of a computed run *)

Lemma estimateHemoglobin_lower (r g b p : Q) :
  0 <= r ->
  (p < 0.2 -> 12.0 <= estimateHemoglobin r g b p)
  /\ (p < 0.4 -> 10.0 <= estimateHemoglobin r g b p)
  /\ (p < 0.6 -> 8.0 <= estimateHemoglobin r g b p).
Proof.
  intros Hr. unfold estimateHemoglobin. cbv zeta. q_consts.
  repeat split; intros Hp; q_piecewise; lra.
Qed.

Lemma lt_cases (x y : Q) :
  ((x <? y) = true /\ x < y) \/ ((x <? y) = false /\ y <= x).
Proof.
  destruct (x <? y) eqn:E.
  - left. split; trivial. apply lt_true. exact E.
  - right. split; trivial. destruct (Qlt_le_dec x y) as [H | H]; trivial.
    apply lt_true in H. congruence.
Qed.

Lemma tierOfPallor_spec (random p h r g b : Q) :
  (p < 0.2 -> 12.0 <= h) -> (p < 0.4 -> 10.0 <= h) -> (p < 0.6 -> 8.0 <= h) ->
  Locals.result (assessBranch random p h r g b) = tierOfPallor p.
Proof.
  intros H1 H2 H3. unfold tierOfPallor.
  destruct (assessBranch_rows random p h r g b)
    as [[R (E & _)] | [[R (E & _)] | [[R (E & _)] | [R (E & _)]]]];
    rewrite E; clear E.
  - destruct R as [R _]. apply lt_true in R. rewrite R. reflexivity.
  - destruct R as (N & R & _).
    destruct (lt_cases p 0.2) as [[_ L] | [-> _]].
    + exfalso. apply N. split; [exact L | exact (H1 L)].
    + apply lt_true in R. rewrite R. reflexivity.
  - destruct R as (N1 & N2 & R & _).
    destruct (lt_cases p 0.2) as [[_ L] | [-> _]].
    { exfalso. apply N1. split; [exact L | exact (H1 L)]. }
    destruct (lt_cases p 0.4) as [[_ L] | [-> _]].
    { exfalso. apply N2. split; [exact L | exact (H2 L)]. }
    apply lt_true in R. rewrite R. reflexivity.
  - destruct R as (N1 & N2 & N3).
    destruct (lt_cases p 0.2) as [[_ L] | [-> _]].
    { exfalso. apply N1. split; [exact L | exact (H1 L)]. }
    destruct (lt_cases p 0.4) as [[_ L] | [-> _]].
    { exfalso. apply N2. split; [exact L | exact (H2 L)]. }
    destruct (lt_cases p 0.6) as [[_ L] | [-> _]].
    { exfalso. apply N3. split; [exact L | exact (H3 L)]. }
    reflexivity.
Qed.

Lemma pallor_decides (random p r g b : Q) :
  0 <= r ->
  Locals.result (assessBranch random p (estimateHemoglobin r g b p) r g b)
  = tierOfPallor p.
Proof.
  intros Hr.
  destruct (estimateHemoglobin_lower r g b p Hr) as (H1 & H2 & H3).
  apply tierOfPallor_spec; assumption.
Qed.

Lemma analyzeSkin_tier (env : Browser) (random : Q) (now : Z)
    (img : Raster) :
  let acc := samplePixels (data img) in
  (skinPixelCount acc === 0) = false ->
  result (analyzeSkin env random now img acc) = tierOfPallor (pallorOf acc).
Proof.
  intros acc Hcount.
  pose proof (skin_average_red (data img) Hcount) as HR.
  fold acc in HR. clearbody acc.
  rewrite analyzeSkin_result. unfold hemoglobinOf.
  apply (pallor_decides random (pallorOf acc)
           (averageR acc) (averageG acc) (averageB acc)).
  lra.
Qed.

(** X4. The hemoglobin thresholds of the cascade never decide: the
    hemoglobin estimate is computed from the same pallor index, and for a
    non-negative avgR it is at least 12.0 when pallorIndex < 0.2, at least
    10.0 when pallorIndex < 0.4 and at least 8.0 when pallorIndex < 0.6.
    So when the classifier is given the estimate of [estimateHemoglobin],
    as the pipeline does, the tier is Normal, Mild Risk, High Risk or
    Severe Risk according to pallorIndex < 0.2, < 0.4, < 0.6 or not; and
    so is the tier of every computed run. *)
Theorem tier_decided_by_pallor_alone :
  (forall random p r g b : Q,
      0 <= r ->
      Locals.result
        (assessBranch random p (estimateHemoglobin r g b p) r g b)
      = tierOfPallor p)
  /\ (forall (env : Browser) (random : Q) (now : Z) (img : Raster),
        let acc := samplePixels (data img) in
        (skinPixelCount acc === 0) = false ->
        result (analyzeSkin env random now img acc)
        = tierOfPallor (pallorOf acc)).
Proof.
  split.
  - exact pallor_decides.
  - exact analyzeSkin_tier.
Qed.

Lemma tier_decided_by_pallor_alone_witness :
  Locals.result
    (assessBranch 0 0.5 (estimateHemoglobin 100 90 80 0.5) 100 90 80)
  = HighRisk.
Proof.
  assert (H : 0 <= 100) by lra.
  exact (proj1 tier_decided_by_pallor_alone 0 0.5 100 90 80 H).
Defined.

Lemma assessBranch_confidence (random p h r g b : Q) :
  let l := assessBranch random p h r g b in
  match Locals.result l with
  | Normal => Locals.confidence l = 92 + random * 6
  | MildRisk => Locals.confidence l = 87 + random * 8
  | HighRisk => Locals.confidence l = 89 + random * 6
  | SevereRisk => Locals.confidence l = 94 + random * 4
  end.
Proof.
  cbv zeta. unfold assessBranch.
  destruct ((p <? 0.2) && (h >=? 12.0));
    [| destruct ((p <? 0.4) && (h >=? 10.0));
       [| destruct ((p <? 0.6) && (h >=? 8.0))]];
    reflexivity.
Qed.

Lemma round_inject (k : Z) : JS.round (inject_Z k) = k.
Proof.
  unfold JS.round. apply Qfloor_unique.
  - lra.
  - rewrite inject_Z_plus. change (inject_Z 1) with 1. lra.
Qed.

Lemma round_between (lo hi : Z) (x : Q) :
  inject_Z lo <= x <= inject_Z hi -> (lo <= JS.round x <= hi)%Z.
Proof.
  intros [Hlo Hhi].
  apply round_monotone in Hlo. apply round_monotone in Hhi.
  rewrite round_inject in Hlo, Hhi. split; assumption.
Qed.

(** [Math.round(x * 10) / 10] between two numbers of tenths. *)
Lemma tenths_between (lo hi : Z) (x : Q) :
  inject_Z lo <= x * 10 <= inject_Z hi ->
  inject_Z lo * 0.1 <= inject_Z (JS.round (x * 10)) / 10
                    <= inject_Z hi * 0.1.
Proof.
  intros H. apply round_between in H. destruct H as [Hlo Hhi].
  rewrite Zle_Qle in Hlo. rewrite Zle_Qle in Hhi. q_consts. lra.
Qed.

Lemma assess_confidence_band (random p h r g b : Q) :
  0 <= random < 1 ->
  let a := assessAnemiaRisk random p h r g b in
  confidenceBand (Assessment.result a) (Assessment.confidence a).
Proof.
  intros Hrand. cbv zeta. rewrite assess_result.
  change (Assessment.confidence (assessAnemiaRisk random p h r g b))
    with (inject_Z (JS.round
            (Locals.confidence (assessBranch random p h r g b) * 10)) / 10).
  pose proof (assessBranch_confidence random p h r g b) as Hc.
  cbv zeta in Hc.
  destruct (Locals.result (assessBranch random p h r g b)); rewrite Hc;
    unfold confidenceBand.
  - pose proof (tenths_between 920 980 (92 + random * 6)) as T.
    change (inject_Z 920) with 920 in T. change (inject_Z 980) with 980 in T.
    lra.
  - pose proof (tenths_between 870 950 (87 + random * 8)) as T.
    change (inject_Z 870) with 870 in T. change (inject_Z 950) with 950 in T.
    lra.
  - pose proof (tenths_between 890 950 (89 + random * 6)) as T.
    change (inject_Z 890) with 890 in T. change (inject_Z 950) with 950 in T.
    lra.
  - pose proof (tenths_between 940 980 (94 + random * 4)) as T.
    change (inject_Z 940) with 940 in T. change (inject_Z 980) with 980 in T.
    lra.
Qed.

Lemma analyzeAnemiaFromImage_paths (env : Browser) (random : Q) (now : Z)
    (imageData : ImageLoad) :
  (~ computedRun env imageData
   /\ analyzeAnemiaFromImage env random now imageData = getDefaultResult now)
  \/ (exists img : Raster,
        imageData = Loaded img
        /\ computedRun env imageData
        /\ analyzeAnemiaFromImage env random now imageData
           = analyzeSkin env random now img (samplePixels (data img))).
Proof.
  destruct imageData as [| img]; cbn [analyzeAnemiaFromImage computedRun].
  - left. split; [tauto | reflexivity].
  - destruct (canvasContext env); cbn [negb].
    + cbv zeta.
      destruct (skinPixelCount (samplePixels (data img)) === 0) eqn:E.
      * left. split; [intros [_ H]; discriminate | reflexivity].
      * right. exists img. repeat split.
    + left. split; [intros [H _]; discriminate | reflexivity].
Qed.

Lemma analyzeSkin_confidence (env : Browser) (random : Q) (now : Z)
    (canvas : Raster) (acc : Accumulator) :
  confidence (analyzeSkin env random now canvas acc)
  = Assessment.confidence
      (assessAnemiaRisk random (pallorOf acc) (hemoglobinOf acc)
                        (averageR acc) (averageG acc) (averageB acc)).
Proof. reflexivity. Qed.

Lemma analyzeSkin_assess_result (env : Browser) (random : Q) (now : Z)
    (canvas : Raster) (acc : Accumulator) :
  result (analyzeSkin env random now canvas acc)
  = Assessment.result
      (assessAnemiaRisk random (pallorOf acc) (hemoglobinOf acc)
                        (averageR acc) (averageG acc) (averageB acc)).
Proof. reflexivity. Qed.

(** X5. With [Math.random()] in [0, 1), the confidence of a computed run
    lies in the band of its tier: 92-98 for Normal, 87-95 for Mild Risk,
    89-95 for High Risk, 94-98 for Severe Risk, so between 87 and 98
    overall; every other run returns the fallback record, whose confidence
    is 85.0.  A confidence of 85 therefore tells the fallback record from a
    computed Mild Risk. *)
Theorem confidence_bands (env : Browser) (random : Q) (now : Z)
    (imageData : ImageLoad) :
  0 <= random < 1 ->
  let a := analyzeAnemiaFromImage env random now imageData in
  (computedRun env imageData
   /\ confidenceBand (result a) (confidence a)
   /\ 87 <= confidence a <= 98)
  \/ (~ computedRun env imageData
      /\ a = getDefaultResult now /\ confidence a == 85).
Proof.
  intros Hrand a. subst a.
  destruct (analyzeAnemiaFromImage_paths env random now imageData)
    as [[Hno ->] | (img & -> & Hrun & ->)].
  - right. split; [exact Hno |]. split; reflexivity.
  - left. split; [exact Hrun |].
    generalize (samplePixels (data img)). intros acc.
    rewrite analyzeSkin_confidence, analyzeSkin_assess_result.
    pose proof (assess_confidence_band random (pallorOf acc) (hemoglobinOf acc)
                  (averageR acc) (averageG acc) (averageB acc) Hrand) as Hband.
    cbv zeta in Hband. split; [exact Hband |].
    destruct (Assessment.result
                (assessAnemiaRisk random (pallorOf acc) (hemoglobinOf acc)
                   (averageR acc) (averageG acc) (averageB acc)));
      unfold confidenceBand in Hband; lra.
Qed.

Lemma confidence_bands_witness :
  let a := analyzeAnemiaFromImage (mkBrowser true true) 0.5 0
             (Loaded (mkRaster 1 1 [250; 120; 100; 255]%Z)) in
  0 <= 0.5 < 1 /\ 87 <= confidence a <= 98.
Proof.
  cbv zeta.
  assert (H : 0 <= 0.5 < 1) by lra.
  split; [exact H |].
  destruct (confidence_bands (mkBrowser true true) 0.5 0
              (Loaded (mkRaster 1 1 [250; 120; 100; 255]%Z)) H)
    as [(_ & _ & Hc) | (Hno & _)].
  - exact Hc.
  - exfalso. apply Hno. split; [reflexivity | vm_compute; reflexivity].
Defined.

Lemma tier_scores (random p h r g b : Q) :
  0 <= p <= 1 ->
  Locals.result (assessBranch random p h r g b) = tierOfPallor p ->
  scoreBand (tierOfPallor p)
            (JS.round (Locals.riskScore (assessBranch random p h r g b))).
Proof.
  intros Hp Htier.
  destruct (assessBranch_rows random p h r g b)
    as [[R (E & -> & _)] | [[R (E & -> & _)] | [[R (E & -> & _)]
       | [R (E & -> & _)]]]];
    rewrite E in Htier; rewrite <- Htier; unfold scoreBand;
    unfold tierOfPallor in Htier.
  - destruct R as [R _]. apply round_between.
    change (inject_Z 0) with 0. change (inject_Z 10) with 10. lra.
  - destruct (lt_cases p 0.2) as [[E1 _] | [E1 L1]]; rewrite E1 in Htier;
      [discriminate |].
    destruct R as (_ & R & _). apply round_between.
    change (inject_Z 33) with 33. change (inject_Z 41) with 41. lra.
  - destruct (lt_cases p 0.2) as [[E1 _] | [E1 L1]]; rewrite E1 in Htier;
      [discriminate |].
    destruct (lt_cases p 0.4) as [[E2 _] | [E2 L2]]; rewrite E2 in Htier;
      [discriminate |].
    destruct R as (_ & _ & R & _). apply round_between.
    change (inject_Z 67) with 67. change (inject_Z 73) with 73. lra.
  - destruct (lt_cases p 0.2) as [[E1 _] | [E1 L1]]; rewrite E1 in Htier;
      [discriminate |].
    destruct (lt_cases p 0.4) as [[E2 _] | [E2 L2]]; rewrite E2 in Htier;
      [discriminate |].
    destruct (lt_cases p 0.6) as [[E3 _] | [E3 L3]]; rewrite E3 in Htier;
      [discriminate |].
    apply round_between.
    change (inject_Z 90) with 90. change (inject_Z 100) with 100. lra.
Qed.

(** X6. On a byte raster, the riskScore of a computed run lies in the
    band of its tier: 0-10 for Normal, 33-41 for Mild Risk, 67-73 for High
    Risk, 90-100 for Severe Risk.  The scores 11-32, 42-66 and 74-89 are
    never computed; the 25 of the fallback record is the riskScore of no
    computed run. *)
Theorem riskScore_bands (env : Browser) (random : Q) (now : Z)
    (img : Raster) :
  byteRaster (data img) ->
  computedRun env (Loaded img) ->
  let a := analyzeAnemiaFromImage env random now (Loaded img) in
  scoreBand (result a) (riskScore a)
  /\ riskScore a <> riskScore (getDefaultResult now).
Proof.
  intros Hbytes Hrun a.
  assert (Hband : scoreBand (result a) (riskScore a)).
  { subst a.
    destruct (analyzeAnemiaFromImage_paths env random now (Loaded img))
      as [[Hno _] | (img' & Himg & _ & ->)]; [contradiction |].
    injection Himg as <-.
    destruct Hrun as [_ Hcount].
    pose proof (analyzeSkin_tier env random now img Hcount) as Htier.
    destruct (pipeline_metrics_bounded env random now img Hbytes Hcount)
      as (_ & _ & _ & Hp & _).
    cbv zeta in Htier, Hp.
    revert Htier Hp. generalize (samplePixels (data img)). intros acc Htier Hp.
    rewrite Htier. rewrite analyzeSkin_riskScore.
    apply tier_scores; [exact Hp |].
    rewrite <- analyzeSkin_result with (env := env) (now := now) (canvas := img).
    exact Htier. }
  split; [exact Hband |].
  change (riskScore (getDefaultResult now)) with 25%Z.
  destruct (result a); unfold scoreBand in Hband; lia.
Qed.

Lemma riskScore_bands_witness :
  let img := mkRaster 1 1 [250; 120; 100; 255]%Z in
  let a := analyzeAnemiaFromImage (mkBrowser true true) 0.5 0 (Loaded img) in
  byteRaster (data img) /\ computedRun (mkBrowser true true) (Loaded img)
  /\ scoreBand (result a) (riskScore a).
Proof.
  cbv zeta.
  assert (Hb : byteRaster (data (mkRaster 1 1 [250; 120; 100; 255]%Z)))
    by (unfold byteRaster; cbn [data]; repeat constructor; lia).
  assert (Hr : computedRun (mkBrowser true true)
                 (Loaded (mkRaster 1 1 [250; 120; 100; 255]%Z)))
    by (split; [reflexivity | vm_compute; reflexivity]).
  split; [exact Hb |]. split; [exact Hr |].
  exact (proj1 (riskScore_bands (mkBrowser true true) 0.5 0
                  (mkRaster 1 1 [250; 120; 100; 255]%Z) Hb Hr)).
Defined.

(** ** The range of the hue *)

Lemma hue_range (r g b : Q) : 0 <= HSV.hue r g b < 360.
Proof.
  unfold HSV.hue. cbv zeta.
  destruct (max3_min3_facts r g b) as (Hr & Hg & Hb). cbv zeta in Hr, Hg, Hb.
  set (M := Qmax (Qmax r g) b) in *. set (m := Qmin (Qmin r g) b) in *.
  destruct (Qeq_bool (M - m) 0) eqn:Ed; [lra |].
  apply Qeq_bool_neq in Ed.
  assert (Hd : 0 < M - m).
  { destruct (Qlt_le_dec 0 (M - m)) as [H | H]; [exact H |].
    exfalso. apply Ed. lra. }
  destruct (Qeq_bool M r) eqn:Er.
  - destruct (Qle_bool b g) eqn:Ebg.
    + apply Qle_bool_iff in Ebg.
      pose proof (ratio_bounds (g - b) (M - m) Hd ltac:(lra)) as Hq.
      destruct (ratio_sign (g - b) (M - m) Hd) as [Hpos _].
      pose proof (Hpos ltac:(lra)). lra.
    + apply Qle_bool_false in Ebg.
      pose proof (ratio_bounds (b - g) (M - m) Hd ltac:(lra)) as Hq.
      assert (Hpos : 0 < (b - g) / (M - m)).
      { apply Qlt_shift_div_l; [exact Hd | lra]. }
      lra.
  - destruct (Qeq_bool M g) eqn:Eg.
    + pose proof (ratio_bounds (b - r) (M - m) Hd ltac:(lra)) as Hq. lra.
    + pose proof (ratio_bounds (r - g) (M - m) Hd ltac:(lra)) as Hq. lra.
Qed.

(** X7. The hue [isSkinPixel] computes lies in [0, 360) for every pixel,
    so the bounds [h >= 0] and [h <= 360] of its two hue ranges always
    hold: the hue test passes exactly when h <= 25 or h >= 340.  A pixel
    without colour (R = G = B) has hue 0 and passes it. *)
Theorem skinHue_range (r g b : Q) :
  0 <= skinHue r g b < 360
  /\ (skinHueRange r g b = true
      <-> skinHue r g b <= 25 \/ 340 <= skinHue r g b)
  /\ skinHue r r r == 0.
Proof.
  pose proof (hue_range r g b) as H.
  rewrite <- (skinHue_is_hue r g b) in H.
  split; [exact H |]. split.
  - unfold skinHueRange. cbv zeta.
    rewrite orb_true_iff, !andb_true_iff, !ge_true, !le_true.
    split; [tauto |]. intros [Hlo | Hhi]; [left | right]; lra.
  - rewrite skinHue_is_hue. unfold HSV.hue. cbv zeta.
    assert (E : Qeq_bool (Qmax (Qmax r r) r - Qmin (Qmin r r) r) 0 = true).
    { apply Qeq_bool_iff. q_piecewise; lra. }
    rewrite E. reflexivity.
Qed.

(** ** The cells of the heatmap *)

Lemma floor3_nat (n : nat) :
  JS.floor (inject_Z (Z.of_nat n) / 3) = Z.of_nat (n / 3).
Proof.
  rewrite Nat2Z.inj_div. unfold JS.floor, inject_Z, Qdiv, Qmult, Qinv, Qfloor.
  cbn [Qnum Qden]. rewrite Z.mul_1_r. reflexivity.
Qed.

Lemma nat_index_nonneg (n : nat) : 0 <= inject_Z (Z.of_nat n).
Proof. change 0 with (inject_Z 0). rewrite <- Zle_Qle. lia. Qed.

Lemma rem3_nat (n : nat) :
  JS.rem (inject_Z (Z.of_nat n)) 3 == inject_Z (Z.of_nat (n mod 3)).
Proof.
  unfold JS.rem, JS.trunc.
  assert (E : Qle_bool 0 (inject_Z (Z.of_nat n) / 3) = true).
  { apply Qle_bool_iff. pose proof (nat_index_nonneg n). q_consts. lra. }
  rewrite E. pose proof (floor3_nat n) as F. unfold JS.floor in F. rewrite F.
  rewrite (Nat.div_mod_eq n 3) at 1.
  rewrite Nat2Z.inj_add, Nat2Z.inj_mul, inject_Z_plus, inject_Z_mult.
  change (inject_Z (Z.of_nat 3)) with 3. ring.
Qed.

Lemma paintFocusArea_cell (canvas : Raster) (gradCtx : Canvas)
    (intensity : Q) (index : nat) :
  exists op : DrawOp,
    painted (paintFocusArea canvas gradCtx intensity index)
    = painted gradCtx ++ [op]
    /\ globalAlpha (paintFocusArea canvas gradCtx intensity index)
       = globalAlpha gradCtx
    /\ paintsCell canvas (globalAlpha gradCtx) index intensity op.
Proof.
  eexists. split; [reflexivity |]. split; [reflexivity |].
  unfold paintsCell. cbv zeta.
  cbn [x0 y0 r0 x1 y1 r1 colorStops addColorStop app].
  pose proof (rem3_nat index) as Hx.
  pose proof (floor3_nat index) as Hy.
  set (W := px (width canvas)). set (H := px (height canvas)).
  assert (HW : 0 < W) by (unfold W, px; change 0 with (inject_Z 0);
                          rewrite <- Zlt_Qlt; lia).
  assert (HH : 0 < H) by (unfold H, px; change 0 with (inject_Z 0);
                          rewrite <- Zlt_Qlt; lia).
  rewrite Hy.
  set (column := inject_Z (Z.of_nat (index mod 3))) in *.
  set (row := inject_Z (Z.of_nat (index / 3))).
  assert (Hcol : 0 <= column <= 2).
  { unfold column. pose proof (Nat.mod_upper_bound index 3 ltac:(lia)) as Hm.
    change 0 with (inject_Z 0). change 2 with (inject_Z 2).
    rewrite <- !Zle_Qle. lia. }
  assert (Hrow0 : 0 <= row) by apply nat_index_nonneg.
  assert (Hrow : (index < 9)%nat <-> row <= 2).
  { unfold row. change 2 with (inject_Z 2). rewrite <- Zle_Qle.
    split; intros Hi.
    - assert (index / 3 <= 2)%nat; [| lia].
      apply Nat.lt_succ_r. apply Nat.Div0.div_lt_upper_bound. lia.
    - assert (Hq : (index / 3 <= 2)%nat) by lia.
      pose proof (Nat.div_mod_eq index 3) as Hdm.
      pose proof (Nat.mod_upper_bound index 3 ltac:(lia)) as Hm. lia. }
  split; [reflexivity |].
  split; [rewrite Hx; reflexivity |].
  do 10 (split; [reflexivity |]).
  unfold insideCanvas. fold W H. rewrite Hx, Hrow. q_consts.
  split.
  - intros Hi. split; [nra |]. split; [nra |]. split; nra.
  - intros (_ & _ & _ & Hbottom). nra.
Qed.

Lemma forEachFocusArea_cells (canvas : Raster) (focusAreas : list Q) :
  forall (index : nat) (gradCtx : Canvas),
  exists cells : list DrawOp,
    painted (forEachFocusArea canvas focusAreas index gradCtx)
    = painted gradCtx ++ cells
    /\ List.length cells = List.length focusAreas
    /\ forall (k : nat) (intensity : Q),
         nth_error focusAreas k = Some intensity ->
         exists op : DrawOp,
           nth_error cells k = Some op
           /\ paintsCell canvas (globalAlpha gradCtx) (index + k) intensity op.
Proof.
  induction focusAreas as [| intensity rest IH]; intros index gradCtx.
  - exists []. split; [cbn; rewrite app_nil_r; reflexivity |].
    split; [reflexivity |]. intros [| k] i Hk; discriminate.
  - cbn [forEachFocusArea].
    destruct (paintFocusArea_cell canvas gradCtx intensity index)
      as (op & Hop & Halpha & Hcell).
    destruct (IH (S index) (paintFocusArea canvas gradCtx intensity index))
      as (cells & Hcells & Hlen & Hnth).
    exists (op :: cells). split.
    + rewrite Hcells, Hop, <- app_assoc. reflexivity.
    + split; [cbn [List.length]; rewrite Hlen; reflexivity |].
      intros [| k] i Hk.
      * cbn in Hk. injection Hk as <-. exists op. split; [reflexivity |].
        rewrite Nat.add_0_r. exact Hcell.
      * cbn in Hk. destruct (Hnth k i Hk) as (op' & Hop' & Hcell').
        exists op'. split; [exact Hop' |].
        rewrite Halpha in Hcell'.
        replace (index + S k)%nat with (S index + k)%nat by lia.
        exact Hcell'.
Qed.

(** X8. When it obtains a context, the renderer paints the input raster
    at opacity 0.6 and then one rectangle per focus area, in order, at
    opacity 0.4: focus area number [index] fills the cell in column
    [index % 3] and row [floor(index / 3)] of a grid whose cells are a third
    of the canvas each way, with a red-orange-yellow radial gradient
    centred in the cell whose stops have opacity intensity/100 times 1,
    0.7 and 0.3.  The cell lies on the canvas exactly for the first nine
    focus areas; the lists the classifier passes have at most 8. *)
Theorem generateGradCAM_paints_grid (canvas : Raster) (focusAreas : list Q) :
  exists cells : list DrawOp,
    generateGradCAM true canvas focusAreas
    = EncodedRaster (width canvas) (height canvas)
                    (DrawImage 0.6 canvas 0 0 :: cells)
    /\ List.length cells = List.length focusAreas
    /\ (forall (index : nat) (intensity : Q),
          nth_error focusAreas index = Some intensity ->
          exists op : DrawOp,
            nth_error cells index = Some op
            /\ paintsCell canvas 0.4 index intensity op)
    /\ forall random p h r g b : Q,
         (List.length (Locals.focusAreas (assessBranch random p h r g b))
          <= 8)%nat.
Proof.
  unfold generateGradCAM. cbn [negb]. cbv zeta.
  match goal with
  | |- context [forEachFocusArea ?c ?f ?i ?ctx] =>
      destruct (forEachFocusArea_cells c f i ctx) as (cells & Hp & Hlen & Hnth);
      destruct (forEachFocusArea_size c f i ctx) as [Hw Hh];
      set (final := forEachFocusArea c f i ctx) in *
  end.
  exists cells. split.
  - unfold toDataURL. rewrite Hp, Hw, Hh. reflexivity.
  - split; [exact Hlen |]. split.
    + intros index intensity Hi.
      destruct (Hnth index intensity Hi) as (op & Hop & Hcell).
      exists op. split; [exact Hop | exact Hcell].
    + intros random p h r g b.
      destruct (assessBranch_rows random p h r g b)
        as [[_ (_ & _ & ->)] | [[_ (_ & _ & ->)] | [[_ (_ & _ & ->)]
           | [_ (_ & _ & ->)]]]]; lia.
Qed.

(** ** The file check *)

Lemma includes_In (l : list string) (s : string) :
  includes l s = true <-> In s l.
Proof.
  unfold includes. rewrite existsb_exists. split.
  - intros (x & Hx & E). apply String.eqb_eq in E. subst x. exact Hx.
  - intros H. exists s. split; [exact H | apply String.eqb_refl].
Qed.

(** X9. [validateImageFile] accepts a file exactly when its type is
    image/jpeg, image/png or image/webp and its size is at most
    10 * 1024 * 1024 = 10485760 bytes: a file of exactly that size passes,
    although the message for larger ones asks for less than 10MB.  The
    type is checked first, so a file of another type gets the message
    about the type whatever its size. *)
Theorem validateImageFile_accepts (file : File) :
  (validateImageFile file = None
   <-> In (fileType file) validTypes /\ (fileSize file <= 10485760)%Z)
  /\ validateImageFile (mkFile "image/png" 10485760) = None
  /\ (~ In (fileType file) validTypes ->
      validateImageFile file
      = Some "Please upload a valid image file (JPEG, PNG, or WebP)"%string).
Proof.
  unfold validateImageFile.
  pose proof (includes_In validTypes (fileType file)) as Hin.
  destruct (includes validTypes (fileType file)) eqn:E; cbn [negb].
  - assert (Ht : In (fileType file) validTypes) by (apply Hin; reflexivity).
    split; [| split; [reflexivity | contradiction]].
    change maxSize with 10485760%Z.
    destruct (Z.gtb (fileSize file) 10485760) eqn:Es.
    + split; [discriminate |]. intros [_ Hs].
      apply Z.gtb_lt in Es. lia.
    + split; [| reflexivity]. intros _. split; [exact Ht |].
      rewrite Z.gtb_ltb in Es. apply Z.ltb_ge in Es. exact Es.
  - split; [| split; [reflexivity | reflexivity]].
    split; [discriminate |]. intros [Ht _].
    apply Hin in Ht. discriminate.
Qed.

(** ** The image validation *)

Lemma lt_false (x y : Q) : (x <? y) = false <-> y <= x.
Proof. unfold JS.lt. rewrite negb_false_iff. apply Qle_bool_iff. Qed.

Lemma gt_false (x y : Q) : (x >? y) = false <-> x <= y.
Proof. unfold JS.gt. rewrite negb_false_iff. apply Qle_bool_iff. Qed.

Lemma strictValidation_accepts (analysis : SkinAnalysis.t) :
  SkinValidation.isValid (strictValidation analysis) = true
  <-> SkinAnalysis.isValid analysis = true
      /\ 30 <= SkinAnalysis.skinPercentage analysis
      /\ SkinAnalysis.imageQuality analysis <> "poor"%string
      /\ SkinAnalysis.hasProperLighting analysis = true.
Proof.
  unfold strictValidation. cbv zeta.
  destruct (SkinAnalysis.isValid analysis);
    [| cbn; split; [discriminate | intros [H _]; discriminate]].
  destruct (SkinAnalysis.skinPercentage analysis <? 30) eqn:Ep.
  { cbn. split; [discriminate |]. intros (_ & H & _).
    apply lt_true in Ep. lra. }
  apply lt_false in Ep.
  destruct (String.eqb (SkinAnalysis.imageQuality analysis) "poor") eqn:Eq.
  { cbn. split; [discriminate |]. intros (_ & _ & H & _).
    apply String.eqb_eq in Eq. contradiction. }
  apply String.eqb_neq in Eq.
  destruct (SkinAnalysis.hasProperLighting analysis); cbn.
  - split; [intros _; repeat split; assumption | reflexivity].
  - split; [discriminate | intros (_ & _ & _ & H); discriminate].
Qed.

(** X10. [validateSkinImage] reports a valid image exactly when the
    reply's JSON parsed and says isValid with a skin percentage of at
    least 30, an image quality other than 'poor' and proper lighting.  A
    reply that went to the fallback parsing is never valid, whatever its
    text says, because the object built there has hasProperLighting false;
    neither is a failed request. *)
Theorem validateSkinImage_accepts (reply : GeminiReply) :
  (SkinValidation.isValid (validateSkinImage reply) = true
   <-> exists analysis : SkinAnalysis.t,
         reply = Parsed analysis
         /\ SkinAnalysis.isValid analysis = true
         /\ 30 <= SkinAnalysis.skinPercentage analysis
         /\ SkinAnalysis.imageQuality analysis <> "poor"%string
         /\ SkinAnalysis.hasProperLighting analysis = true)
  /\ (forall (isValidMatch : bool) (skinPercentageMatch : option N),
        SkinValidation.isValid
          (validateSkinImage (Unparsed isValidMatch skinPercentageMatch))
        = false)
  /\ SkinValidation.isValid (validateSkinImage RequestFailed) = false.
Proof.
  assert (Hfallback : forall m p,
             SkinValidation.isValid (strictValidation (fallbackAnalysis m p))
             = false).
  { intros m p.
    destruct (SkinValidation.isValid (strictValidation (fallbackAnalysis m p)))
      eqn:E; [| reflexivity].
    apply strictValidation_accepts in E. destruct E as (_ & _ & _ & H).
    discriminate. }
  split; [| split; [exact Hfallback | reflexivity]].
  destruct reply as [| analysis | m p]; cbn [validateSkinImage].
  - cbn. split; [discriminate | intros (a & H & _); discriminate].
  - rewrite strictValidation_accepts. split.
    + intros H. exists analysis. split; [reflexivity | exact H].
    + intros (a & Ha & H). injection Ha as <-. exact H.
  - rewrite Hfallback. split; [discriminate | intros (a & H & _); discriminate].
Qed.

(** ** The analysis run *)

Lemma reasonOrDefault_truthy (reason : option Message) :
  truthy (reasonOrDefault reason) = true.
Proof.
  unfold reasonOrDefault. destruct reason as [m |]; [| reflexivity].
  destruct (truthy m) eqn:E; [exact E | reflexivity].
Qed.

(** X11. A run of [runAnalysis] on a page with a selected image and a
    non-empty preview ends with isAnalyzing false and leaves the image
    and its preview in place.  When the validation passes, the page is at
    step 'results' with progress 100 and the analysis result stored, and
    a validation error shown before the run is still there; when it
    fails, the page is back at step 'capture' with progress 15, the
    stored result untouched and a non-empty validation error. *)
Theorem runAnalysis_outcome (reply : GeminiReply) (analysis : AnalysisResult)
    (s : PageState) (file : File) (preview : string) :
  selectedImage s = Some file -> imagePreview s = Some preview ->
  preview <> ""%string ->
  let s' := runAnalysis reply analysis s in
  isAnalyzing s' = false
  /\ selectedImage s' = selectedImage s /\ imagePreview s' = imagePreview s
  /\ (SkinValidation.isValid (validateSkinImage reply) = true ->
      currentStep s' = results /\ analysisProgress s' = 100%Z
      /\ analysisResult s' = Some analysis
      /\ validationError s' = validationError s)
  /\ (SkinValidation.isValid (validateSkinImage reply) = false ->
      currentStep s' = capture /\ analysisProgress s' = 15%Z
      /\ analysisResult s' = analysisResult s
      /\ exists m : Message,
           validationError s' = Some m /\ truthy m = true).
Proof.
  intros Himg Hprev Hne. cbv zeta. unfold runAnalysis.
  rewrite Himg, Hprev. apply String.eqb_neq in Hne. rewrite Hne. cbv zeta.
  destruct (SkinValidation.isValid (validateSkinImage reply)) eqn:E;
    cbn [negb].
  - cbn. rewrite Himg, Hprev.
    repeat split; try reflexivity; discriminate.
  - cbn -[reasonOrDefault truthy]. rewrite Himg, Hprev.
    split; [reflexivity |]. split; [reflexivity |]. split; [reflexivity |].
    split; [discriminate |]. intros _.
    split; [reflexivity |]. split; [reflexivity |]. split; [reflexivity |].
    eexists. split; [reflexivity | apply reasonOrDefault_truthy].
Qed.

Lemma runAnalysis_outcome_witness :
  let s := mkPage capture (Some (mkFile "image/png" 2048))
                  (Some "data:image/png;base64,AAAA"%string) 0 None false
                  None in
  isAnalyzing (runAnalysis RequestFailed (getDefaultResult 0) s) = false.
Proof.
  cbv zeta.
  refine (proj1 (runAnalysis_outcome RequestFailed (getDefaultResult 0)
                   (mkPage capture (Some (mkFile "image/png" 2048))
                           (Some "data:image/png;base64,AAAA"%string) 0 None
                           false None)
                   (mkFile "image/png" 2048)
                   "data:image/png;base64,AAAA" eq_refl eq_refl _)).
  discriminate.
Defined.

(** ** The colours of the results panel *)

Lemma estimateHemoglobin_skin (r g b p : Q) :
  96 <= r ->
  (p < 0.4 -> 12.0 <= estimateHemoglobin r g b p)
  /\ (p < 0.6 -> 10.0 <= estimateHemoglobin r g b p).
Proof.
  intros Hr. unfold estimateHemoglobin. cbv zeta. q_consts.
  split; intros Hp; q_piecewise; lra.
Qed.

Lemma analyzeSkin_pallorIndex (env : Browser) (random : Q) (now : Z)
    (canvas : Raster) (acc : Accumulator) :
  pallorIndex (colorAnalysis (analyzeSkin env random now canvas acc))
  = inject_Z (JS.round (pallorOf acc * 100)) / 100.
Proof. reflexivity. Qed.

Lemma analyzeSkin_hemoglobinEstimate (env : Browser) (random : Q) (now : Z)
    (canvas : Raster) (acc : Accumulator) :
  hemoglobinEstimate (colorAnalysis (analyzeSkin env random now canvas acc))
  = inject_Z (JS.round (hemoglobinOf acc * 10)) / 10.
Proof. reflexivity. Qed.

Lemma round_lower (k : Z) (x : Q) : inject_Z k <= x -> (k <= JS.round x)%Z.
Proof.
  intros H. apply round_monotone in H. rewrite round_inject in H. exact H.
Qed.

Lemma round_upper (k : Z) (x : Q) : x <= inject_Z k -> (JS.round x <= k)%Z.
Proof.
  intros H. apply round_monotone in H. rewrite round_inject in H. exact H.
Qed.

(** The stored pallor index and its colour, from the unrounded one. *)
Lemma stored_pallor (p : Q) :
  let stored := inject_Z (JS.round (p * 100)) / 100 in
  (p < 0.2 -> stored <= 0.2) /\ (p < 0.4 -> stored <= 0.4)
  /\ (0.4 <= p -> 0.4 <= stored) /\ (0.6 <= p -> 0.6 <= stored).
Proof.
  cbv zeta.
  repeat split; intros Hp.
  - assert (H : (JS.round (p * 100) <= 20)%Z)
      by (apply round_upper; change (inject_Z 20) with 20; lra).
    rewrite Zle_Qle in H. change (inject_Z 20) with 20 in H. q_consts. lra.
  - assert (H : (JS.round (p * 100) <= 40)%Z)
      by (apply round_upper; change (inject_Z 40) with 40; lra).
    rewrite Zle_Qle in H. change (inject_Z 40) with 40 in H. q_consts. lra.
  - assert (H : (40 <= JS.round (p * 100))%Z)
      by (apply round_lower; change (inject_Z 40) with 40; lra).
    rewrite Zle_Qle in H. change (inject_Z 40) with 40 in H. q_consts. lra.
  - assert (H : (60 <= JS.round (p * 100))%Z)
      by (apply round_lower; change (inject_Z 60) with 60; lra).
    rewrite Zle_Qle in H. change (inject_Z 60) with 60 in H. q_consts. lra.
Qed.

Lemma stored_hemoglobin (h : Q) :
  let stored := inject_Z (JS.round (h * 10)) / 10 in
  (12.0 <= h -> 12 <= stored) /\ (10.0 <= h -> 10 <= stored).
Proof.
  cbv zeta. split; intros Hh.
  - assert (H : (120 <= JS.round (h * 10))%Z)
      by (apply round_lower; change (inject_Z 120) with 120; lra).
    rewrite Zle_Qle in H. change (inject_Z 120) with 120 in H. q_consts. lra.
  - assert (H : (100 <= JS.round (h * 10))%Z)
      by (apply round_lower; change (inject_Z 100) with 100; lra).
    rewrite Zle_Qle in H. change (inject_Z 100) with 100 in H. q_consts. lra.
Qed.

Lemma pallorClass_cases (a : AnalysisResult) :
  let p := pallorIndex (colorAnalysis a) in
  (p <= 0.3 -> pallorClass a = "text-green-600"%string)
  /\ (p <= 0.5 -> pallorClass a <> "text-red-600"%string)
  /\ (0.3 < p -> pallorClass a <> "text-green-600"%string)
  /\ (0.5 < p -> pallorClass a = "text-red-600"%string).
Proof.
  cbv zeta. unfold pallorClass.
  destruct (pallorIndex (colorAnalysis a) >? 0.5) eqn:E1;
    [apply gt_true in E1 | apply gt_false in E1];
    (destruct (pallorIndex (colorAnalysis a) >? 0.3) eqn:E2;
     [apply gt_true in E2 | apply gt_false in E2]);
    repeat split; intros H; try reflexivity; try discriminate; lra.
Qed.

Lemma hemoglobinClass_cases (a : AnalysisResult) :
  let h := hemoglobinEstimate (colorAnalysis a) in
  (12 <= h -> hemoglobinClass a = "text-green-600"%string)
  /\ (10 <= h -> hemoglobinClass a <> "text-red-600"%string)
  /\ (h < 10 -> hemoglobinClass a = "text-red-600"%string).
Proof.
  cbv zeta. unfold hemoglobinClass.
  destruct (hemoglobinEstimate (colorAnalysis a) <? 10) eqn:E1;
    [apply lt_true in E1 | apply lt_false in E1];
    (destruct (hemoglobinEstimate (colorAnalysis a) <? 12) eqn:E2;
     [apply lt_true in E2 | apply lt_false in E2]);
    repeat split; intros H; try reflexivity; try discriminate; lra.
Qed.

Lemma tierOfPallor_cases (p : Q) :
  match tierOfPallor p with
  | Normal => p < 0.2
  | MildRisk => 0.2 <= p < 0.4
  | HighRisk => 0.4 <= p < 0.6
  | SevereRisk => 0.6 <= p
  end.
Proof.
  unfold tierOfPallor.
  destruct (lt_cases p 0.2) as [[-> L1] | [-> L1]]; [exact L1 |].
  destruct (lt_cases p 0.4) as [[-> L2] | [-> L2]]; [split; assumption |].
  destruct (lt_cases p 0.6) as [[-> L3] | [-> L3]]; [split; assumption |].
  exact L3.
Qed.

(** X12. The colours of the results panel follow the tier of a computed
    run: for Normal the pallor index and the hemoglobin estimate are both
    shown in green; for Mild Risk the hemoglobin estimate is green and the
    pallor index is not red; for High Risk the pallor index is not green and
    the hemoglobin estimate is not red; for Severe Risk the pallor index is
    red.  The fallback record, a Mild Risk, shows its pallor index 0 in
    green and its hemoglobin estimate 0 in red. *)
Theorem results_panel_colours (env : Browser) (random : Q) (now : Z)
    (imageData : ImageLoad) :
  let a := analyzeAnemiaFromImage env random now imageData in
  let green := "text-green-600"%string in
  let red := "text-red-600"%string in
  (computedRun env imageData ->
   match result a with
   | Normal => pallorClass a = green /\ hemoglobinClass a = green
   | MildRisk => pallorClass a <> red /\ hemoglobinClass a = green
   | HighRisk => pallorClass a <> green /\ hemoglobinClass a <> red
   | SevereRisk => pallorClass a = red
   end)
  /\ (~ computedRun env imageData ->
      result a = MildRisk /\ pallorClass a = green /\ hemoglobinClass a = red).
Proof.
  cbv zeta.
  destruct (analyzeAnemiaFromImage_paths env random now imageData)
    as [[Hno ->] | (img & -> & Hrun & ->)].
  - split; [contradiction |]. intros _. repeat split.
  - split; [| contradiction]. intros _.
    destruct Hrun as [_ Hcount].
    pose proof (analyzeSkin_tier env random now img Hcount) as Htier.
    pose proof (skin_average_red (data img) Hcount) as HR.
    cbv zeta in Htier, HR. revert Htier HR.
    generalize (samplePixels (data img)). intros acc Htier HR.
    set (a := analyzeSkin env random now img acc) in *.
    destruct (pallorClass_cases a) as (PG & PnR & PnG & PR).
    destruct (hemoglobinClass_cases a) as (HG & HnR & _).
    cbv zeta in PG, PnR, PnG, PR, HG, HnR.
    unfold a in PG, PnR, PnG, PR, HG, HnR.
    rewrite analyzeSkin_pallorIndex in PG, PnR, PnG, PR.
    rewrite analyzeSkin_hemoglobinEstimate in HG, HnR.
    destruct (stored_pallor (pallorOf acc)) as (S1 & S2 & S3 & S4).
    destruct (stored_hemoglobin (hemoglobinOf acc)) as (T1 & T2).
    cbv zeta in S1, S2, S3, S4, T1, T2.
    destruct (estimateHemoglobin_skin (averageR acc) (averageG acc)
                (averageB acc) (pallorOf acc) HR) as (E1 & E2).
    fold (hemoglobinOf acc) in E1, E2.
    pose proof (tierOfPallor_cases (pallorOf acc)) as Hp.
    rewrite Htier. fold a.
    destruct (tierOfPallor (pallorOf acc)).
    + split; [apply PG | apply HG, T1, E1]; [pose proof (S1 Hp) |]; lra.
    + destruct Hp as [_ Hp].
      split; [apply PnR | apply HG, T1, E1; exact Hp].
      pose proof (S2 Hp). lra.
    + destruct Hp as [Hlo Hhi].
      split; [apply PnG | apply HnR, T2, E2; exact Hhi].
      pose proof (S3 Hlo). lra.
    + apply PR. pose proof (S4 Hp). lra.
Qed.

Lemma results_panel_colours_witness :
  let a := analyzeAnemiaFromImage (mkBrowser true true) 0.5 0
             (Loaded (mkRaster 1 1 [250; 120; 100; 255]%Z)) in
  result a = Normal /\ pallorClass a = "text-green-600"%string
  /\ hemoglobinClass a = "text-green-600"%string.
Proof.
  cbv zeta. split; [vm_compute; reflexivity |].
  assert (Hr : computedRun (mkBrowser true true)
                 (Loaded (mkRaster 1 1 [250; 120; 100; 255]%Z)))
    by (split; [reflexivity | vm_compute; reflexivity]).
  pose proof (proj1 (results_panel_colours (mkBrowser true true) 0.5 0
                       (Loaded (mkRaster 1 1 [250; 120; 100; 255]%Z))) Hr)
    as H.
  cbv zeta in H.
  replace (result (analyzeAnemiaFromImage (mkBrowser true true) 0.5 0
                     (Loaded (mkRaster 1 1 [250; 120; 100; 255]%Z))))
    with Normal in H by (vm_compute; reflexivity).
  exact H.
Defined.
